(** * A shallow embedding of the [splitwise] client ([splitwise/__init__.py])

    Python strings and byte strings are both modelled as [string] (a byte
    sequence); a Python [str] is held as its UTF-8 encoding.  Python
    dictionaries are association lists in insertion order.  Exceptions are
    values of [exn]; every method runs in a small state/exception monad over
    the client object, the object heap and the log of issued HTTP requests. *)

From Stdlib Require Import String Ascii List Bool ZArith Arith Lia.
Import ListNotations.
Open Scope string_scope.
Set Warnings "-register-all".

(* ------------------------------------------------------------------ *)
(** ** Strings *)

Definition digit_char (d : nat) : ascii := ascii_of_nat (48 + d).

(** Decimal rendering of a natural number ([str(n)]). *)
Fixpoint digits_of_nat_aux (fuel n : nat) (acc : string) : string :=
  match fuel with
  | O => acc
  | S fuel' =>
      let acc' := String (digit_char (n mod 10)) acc in
      if Nat.ltb n 10 then acc' else digits_of_nat_aux fuel' (n / 10) acc'
  end.

Definition str_nat (n : nat) : string := digits_of_nat_aux (S n) n "".

(** [str(z)] for a Python [int]. *)
Definition str_Z (z : Z) : string :=
  match z with
  | Z.neg _ => "-" ++ str_nat (Z.abs_nat z)
  | _ => str_nat (Z.abs_nat z)
  end.

Fixpoint string_of_list (l : list ascii) : string :=
  match l with [] => "" | c :: l' => String c (string_of_list l') end.

(** Python's [sep.join(parts)]. *)
Definition py_join (sep : string) (parts : list string) : string :=
  String.concat sep parts.

(** [needle in haystack] for Python strings (substring test). *)
Definition str_contains (needle hay : string) : bool :=
  match String.index 0 needle hay with Some _ => true | None => false end.

(** Splitting a UTF-8 encoded [str] into its characters (code points); the
    length of the leading byte decides the length of each character. *)
Fixpoint utf8_chars_aux (fuel : nat) (s : string) : list string :=
  match fuel, s with
  | O, _ => []
  | _, EmptyString => []
  | S fuel', String c rest =>
      let n := nat_of_ascii c in
      let k := if Nat.ltb n 128 then 0 else if Nat.ltb n 224 then 1
               else if Nat.ltb n 240 then 2 else 3 in
      String c (substring 0 k rest) :: utf8_chars_aux fuel' (substring k (String.length rest - k) rest)
  end.

Definition utf8_chars (s : string) : list string := utf8_chars_aux (String.length s) s.

(** [bytes.decode("utf-8")]: succeeds exactly on well-formed UTF-8. *)
Definition in_range (lo hi : nat) (c : ascii) : bool :=
  Nat.leb lo (nat_of_ascii c) && Nat.leb (nat_of_ascii c) hi.

Definition cont (c : ascii) : bool := in_range 128 191 c.

Fixpoint utf8_valid (s : string) : bool :=
  match s with
  | EmptyString => true
  | String c rest =>
      let n := nat_of_ascii c in
      if Nat.ltb n 128 then utf8_valid rest
      else if (Nat.leb 194 n) && (Nat.leb n 223) then
        match rest with String c1 r => cont c1 && utf8_valid r | _ => false end
      else if (Nat.leb 224 n) && (Nat.leb n 239) then
        match rest with
        | String c1 (String c2 r) =>
            (if Nat.eqb n 224 then in_range 160 191 c1
             else if Nat.eqb n 237 then in_range 128 159 c1 else cont c1)
            && cont c2 && utf8_valid r
        | _ => false
        end
      else if (Nat.leb 240 n) && (Nat.leb n 244) then
        match rest with
        | String c1 (String c2 (String c3 r)) =>
            (if Nat.eqb n 240 then in_range 144 191 c1
             else if Nat.eqb n 244 then in_range 128 143 c1 else cont c1)
            && cont c2 && cont c3 && utf8_valid r
        | _ => false
        end
      else false
  end.

(* ------------------------------------------------------------------ *)
(** ** Values *)

(** Parsed JSON, as produced by [json.loads] (objects keep their keys in
    document order; [json.loads] keeps one entry per key). *)
Inductive json : Type :=
| JNull
| JBool (b : bool)
| JNum (z : Z)
| JStr (s : string)
| JArr (l : list json)
| JObj (m : list (string * json)).

(** Python values stored in object attributes ([obj.__dict__]); [VRef]
    points into the object heap, so two references may alias. *)
Inductive pyval : Type :=
| VNone
| VBool (b : bool)
| VInt (z : Z)
| VStr (s : string)
| VList (l : list pyval)
| VRef (r : nat).

(** An object's [__dict__]: attribute names to values, in insertion order. *)
Definition pydict := list (string * pyval).

Fixpoint assoc {A} (k : string) (m : list (string * A)) : option A :=
  match m with
  | [] => None
  | (k', v) :: m' => if String.eqb k k' then Some v else assoc k m'
  end.

(** [d[k] = v]: overwrite in place, or append a new key at the end. *)
Fixpoint dict_set {A} (k : string) (v : A) (m : list (string * A)) : list (string * A) :=
  match m with
  | [] => [(k, v)]
  | (k', v') :: m' => if String.eqb k k' then (k', v) :: m' else (k', v') :: dict_set k v m'
  end.

(** [del d[k]] (the caller raises [KeyError] when [k] is absent); a
    dictionary holds each key once, so this drops that one entry. *)
Definition dict_del {A} (k : string) (m : list (string * A)) : list (string * A) :=
  filter (fun '(k', _) => negb (String.eqb k k')) m.

(** Python exceptions raised by the client. *)
Inductive exn : Type :=
| SplitwiseAPIException (msg : string)
| SplitwiseAPIUnauthorizedException (msg : string)
| KeyError (key : string)
| TypeError (msg : string)
| AttributeError (name : string)
| ValueError (msg : string)
| RuntimeError (msg : string)
| UnicodeDecodeError
| JSONDecodeError.

Inductive res (A : Type) : Type :=
| Ok (a : A)
| Exc (e : exn).
Arguments Ok {A} a.
Arguments Exc {A} e.

(* ------------------------------------------------------------------ *)
(** ** Python conversions used by the client *)

(** [str(v)]; a string inside a list is shown as ['...'] (escapes inside it
    are not modelled) and an object as [<object at r>], where the heap index
    [r] stands for CPython's memory address. *)
Fixpoint py_str (v : pyval) : string :=
  match v with
  | VNone => "None"
  | VBool true => "True"
  | VBool false => "False"
  | VInt z => str_Z z
  | VStr s => s
  | VList l =>
      "[" ++ py_join ", " (map (fun x => match x with
                                         | VStr s => "'" ++ s ++ "'"
                                         | _ => py_str x end) l) ++ "]"
  | VRef r => "<object at " ++ str_nat r ++ ">"
  end.

Definition hex_digit (n : nat) : ascii :=
  if Nat.ltb n 10 then ascii_of_nat (48 + n) else ascii_of_nat (55 + n).

(** [urllib.parse.quote_plus]: letters, digits and [_.-~] are kept, a space
    becomes [+], every other byte becomes [%XX]. *)
Definition quote_plus_char (c : ascii) : string :=
  let n := nat_of_ascii c in
  if in_range 65 90 c || in_range 97 122 c || in_range 48 57 c
     || Ascii.eqb c "_" || Ascii.eqb c "." || Ascii.eqb c "-" || Ascii.eqb c "~"
  then String c EmptyString
  else if Nat.eqb n 32 then "+"
  else String "%" (String (hex_digit (n / 16)) (String (hex_digit (n mod 16)) EmptyString)).

Fixpoint quote_plus (s : string) : string :=
  match s with
  | EmptyString => EmptyString
  | String c s' => quote_plus_char c ++ quote_plus s'
  end.

(** [urllib.parse.urlencode(d)] for a dictionary (no [doseq]). *)
Definition urlencode (d : pydict) : string :=
  py_join "&" (map (fun '(k, v) => quote_plus k ++ "=" ++ quote_plus (py_str v)) d).

(** Operations on the parsed JSON envelope, with the exceptions Python
    raises when the value has the wrong type. *)

(** [k in x] *)
Definition json_contains (k : string) (x : json) : res bool :=
  match x with
  | JObj m => Ok (match assoc k m with Some _ => true | None => false end)
  | JArr l => Ok (existsb (fun e => match e with JStr s => String.eqb s k | _ => false end) l)
  | JStr s => Ok (str_contains k s)
  | JNum _ => Exc (TypeError "argument of type 'int' is not iterable")
  | JBool _ => Exc (TypeError "argument of type 'bool' is not iterable")
  | JNull => Exc (TypeError "argument of type 'NoneType' is not iterable")
  end.

(** [x[k]] with a string key *)
Definition json_getitem (x : json) (k : string) : res json :=
  match x with
  | JObj m => match assoc k m with Some v => Ok v | None => Exc (KeyError k) end
  | JArr _ => Exc (TypeError "list indices must be integers or slices, not str")
  | JStr _ => Exc (TypeError "string indices must be integers")
  | _ => Exc (TypeError "object is not subscriptable")
  end.

(** [len(x)] *)
Definition json_len (x : json) : res nat :=
  match x with
  | JObj m => Ok (length m)
  | JArr l => Ok (length l)
  | JStr s => Ok (length (utf8_chars s))
  | _ => Exc (TypeError "object has no len()")
  end.

(** [x.get(k, default)]: only dictionaries have [get]. *)
Definition json_get (x : json) (k : string) (default : json) : res json :=
  match x with
  | JObj m => match assoc k m with Some v => Ok v | None => Ok default end
  | _ => Exc (AttributeError "get")
  end.

(** [for e in x]: a list yields its items, a dictionary its keys, a string
    its characters. *)
Definition json_iter (x : json) : res (list json) :=
  match x with
  | JArr l => Ok l
  | JObj m => Ok (map (fun '(k, _) => JStr k) m)
  | JStr s => Ok (map JStr (utf8_chars s))
  | _ => Exc (TypeError "object is not iterable")
  end.

(** The items of [sep.join(x)]: every item must be a string. *)
Fixpoint json_strs (l : list json) : res (list string) :=
  match l with
  | [] => Ok []
  | JStr s :: l' => match json_strs l' with Ok r => Ok (s :: r) | Exc e => Exc e end
  | _ :: _ => Exc (TypeError "sequence item: expected str instance")
  end.

(** [sep.join(x)] *)
Definition json_join (sep : string) (x : json) : res string :=
  match json_iter x with
  | Exc e => Exc e
  | Ok items => match json_strs items with Ok ss => Ok (py_join sep ss) | Exc e => Exc e end
  end.

(* ------------------------------------------------------------------ *)
(** ** OAuth objects, requests and the client state *)

(** [oauth.Consumer] and [oauth.Token] (the [oauth2] package). *)
Record consumer := mkConsumer { cs_key : pyval; cs_secret : pyval }.
Record token := mkToken { tk_key : pyval; tk_secret : pyval; tk_verifier : option pyval }.

(** [oauth.Client(consumer, token)]: it signs every request it sends with
    the consumer and, when present, the token. *)
Record oclient := mkClient { cl_consumer : consumer; cl_token : option token }.

(** A signed HTTP request as handed to the network. *)
Record request := mkRequest {
  rq_url : string; rq_method : string; rq_body : option string; rq_signer : oclient }.

(** The [(resp, content)] pair of [client.request]: [resp['status']],
    [resp.reason] and the raw body bytes. *)
Record response := mkResponse { status : string; reason : string; body : string }.

(** The attributes of a [Splitwise] instance; [sw_token] and [sw_client]
    are [None] while the attribute does not exist. *)
Record splitwise := mkSplitwise {
  sw_consumer : consumer; sw_token : option token; sw_client : option oclient }.

(** Everything a call can read or change: the client object, the heap of
    Python objects ([__dict__]s, indexed by reference) and the log of the
    requests sent so far. *)
Record world := mkWorld { self : splitwise; heap : list pydict; log : list request }.

(** The state/exception monad. *)
Definition M (A : Type) := world -> world * res A.

Definition ret {A} (a : A) : M A := fun w => (w, Ok a).
Definition raise {A} (e : exn) : M A := fun w => (w, Exc e).
Definition bind {A B} (c : M A) (k : A -> M B) : M B :=
  fun w => match c w with
           | (w', Ok a) => k a w'
           | (w', Exc e) => (w', Exc e)
           end.
Definition lift {A} (r : res A) : M A := fun w => (w, r).

Notation "x <- c ;; k" := (bind c (fun x => k))
  (at level 61, c at next level, right associativity).
Notation "c ;;; k" := (bind c (fun _ => k)) (at level 61, right associativity).

Definition get_self : M splitwise := fun w => (w, Ok (self w)).
Definition put_self (s : splitwise) : M unit :=
  fun w => (mkWorld s (heap w) (log w), Ok tt).

(** [obj.__dict__] of a heap object. *)
Definition get_obj (r : nat) : M pydict :=
  fun w => match nth_error (heap w) r with
           | Some d => (w, Ok d)
           | None => (w, Exc (AttributeError "__dict__"))
           end.

Fixpoint list_set {A} (n : nat) (x : A) (l : list A) : list A :=
  match n, l with
  | _, [] => []
  | O, _ :: l' => x :: l'
  | S n', y :: l' => y :: list_set n' x l'
  end.

(** In-place update of a heap object's [__dict__]. *)
Definition put_obj (r : nat) (d : pydict) : M unit :=
  fun w => (mkWorld (self w) (list_set r d (heap w)) (log w), Ok tt).

(** [oauth.Token(key, secret)]: both must be set. *)
Definition oauth_Token (key secret : pyval) : res token :=
  match key, secret with
  | VNone, _ | _, VNone => Exc (ValueError "Key and secret must be set.")
  | _, _ => Ok (mkToken key secret None)
  end.

Definition oauth_Consumer (key secret : pyval) : res consumer :=
  match key, secret with
  | VNone, _ | _, VNone => Exc (ValueError "Key and secret must be set.")
  | _, _ => Ok (mkConsumer key secret)
  end.

(** URL constants of the [Splitwise] class. *)
Definition SPLITWISE_BASE_URL := "https://secure.splitwise.com/".
Definition SPLITWISE_VERSION := "v3.0".
Definition api (path : string) := SPLITWISE_BASE_URL ++ "api/" ++ SPLITWISE_VERSION ++ "/" ++ path.
Definition REQUEST_TOKEN_URL := api "get_request_token".
Definition ACCESS_TOKEN_URL := api "get_access_token".
Definition AUTHORIZE_URL := SPLITWISE_BASE_URL ++ "authorize".
Definition GET_CURRENT_USER_URL := api "get_current_user".
Definition GET_USER_URL := api "get_user".
Definition GET_FRIENDS_URL := api "get_friends".
Definition GET_GROUPS_URL := api "get_groups".
Definition GET_GROUP_URL := api "get_group".
Definition GET_CURRENCY_URL := api "get_currencies".
Definition GET_CATEGORY_URL := api "get_categories".
Definition GET_EXPENSES_URL := api "get_expenses".
Definition GET_EXPENSE_URL := api "get_expense".
Definition CREATE_EXPENSE_URL := api "create_expense".
Definition CREATE_GROUP_URL := api "create_group".
Definition DELETE_GROUP_URL := api "delete_group".

(** [str.split(sep)] on a one-character separator. *)
Fixpoint split_on (sep : ascii) (s : string) : list string :=
  match s with
  | EmptyString => [EmptyString]
  | String c s' =>
      if Ascii.eqb c sep then EmptyString :: split_on sep s'
      else match split_on sep s' with
           | [] => [String c EmptyString]
           | x :: xs => String c x :: xs
           end
  end.

(** [str.split(sep, 1)]: [None] when [sep] does not occur. *)
Fixpoint split_once (sep : ascii) (s : string) : option (string * string) :=
  match s with
  | EmptyString => None
  | String c s' =>
      if Ascii.eqb c sep then Some (EmptyString, s')
      else match split_once sep s' with
           | Some (a, b) => Some (String c a, b)
           | None => None
           end
  end.

Definition hex_val (c : ascii) : option nat :=
  let n := nat_of_ascii c in
  if in_range 48 57 c then Some (n - 48)
  else if in_range 65 70 c then Some (n - 55)
  else if in_range 97 102 c then Some (n - 87)
  else None.

(** [urllib.parse.unquote] after [replace('+', ' ')]: [%XX] with two hex
    digits becomes that byte, anything else is kept (the final re-decoding
    with [errors='replace'] is not modelled: bytes are kept as they are). *)
Fixpoint unquote_plus (s : string) : string :=
  match s with
  | EmptyString => EmptyString
  | String "%" (String h1 (String h2 rest) as tl) =>
      match hex_val h1, hex_val h2 with
      | Some a, Some b => String (ascii_of_nat (16 * a + b)) (unquote_plus rest)
      | _, _ => String "%" (unquote_plus tl)
      end
  | String c rest =>
      String (if Ascii.eqb c "+" then " "%char else c) (unquote_plus rest)
  end.

(** [urllib.parse.parse_qsl(qs)] with its defaults: separator [&], blank
    values and fields without [=] dropped. *)
Definition parse_qsl (qs : string) : list (string * string) :=
  flat_map (fun nv =>
              match split_once "=" nv with
              | Some (n, v) =>
                  if String.eqb v "" then [] else [(unquote_plus n, unquote_plus v)]
              | None => []
              end) (split_on "&" qs).

(** [dict(pairs)]: later pairs overwrite earlier ones. *)
Definition dict_of_pairs {A} (l : list (string * A)) : list (string * A) :=
  fold_left (fun d '(k, v) => dict_set k v d) l [].

(* ------------------------------------------------------------------ *)
(** ** The [Splitwise] class *)

Section Client.

(** The remote service: the response to a request may depend on every
    request sent before it. *)
Variable transport : list request -> request -> response.

(** [json.loads] on a decoded body; [None] is a [JSONDecodeError]. *)
Variable json_loads : string -> option json.

(** [client.request(url, method[, body])]: sign with the client's
    credentials, send, and record the request. *)
Definition client_request (cl : oclient) (url meth : string) (bdy : option string)
  : M response :=
  fun w =>
    let rq := mkRequest url meth bdy cl in
    (mkWorld (self w) (heap w) (log w ++ [rq]), Ok (transport (log w) rq)).

(** [bytes.decode("utf-8")] *)
Definition decode_utf8 (b : string) : res string :=
  if utf8_valid b then Ok b else Exc UnicodeDecodeError.

Definition json_loads_res (s : string) : res json :=
  match json_loads s with Some j => Ok j | None => Exc JSONDecodeError end.

(** [Splitwise.setAccessToken] *)
Definition setAccessToken (access_token : pydict) : M unit :=
  key <- lift (match assoc "oauth_token" access_token with
               | Some v => Ok v | None => Exc (KeyError "oauth_token") end) ;;
  secret <- lift (match assoc "oauth_token_secret" access_token with
                  | Some v => Ok v | None => Exc (KeyError "oauth_token_secret") end) ;;
  tok <- lift (oauth_Token key secret) ;;
  sw <- get_self ;;
  put_self (mkSplitwise (sw_consumer sw) (Some tok) (sw_client sw)) ;;;
  sw' <- get_self ;;
  put_self (mkSplitwise (sw_consumer sw') (sw_token sw')
                        (Some (mkClient (sw_consumer sw') (Some tok)))).

(** [Splitwise(consumer_key, consumer_secret, access_token)]: the new
    instance in a world with heap [h] and request log [lg].  A Python
    [None] or empty dictionary for [access_token] is falsy. *)
Definition Splitwise_new (consumer_key consumer_secret : pyval)
           (access_token : option pydict) (h : list pydict) (lg : list request)
  : res world :=
  match oauth_Consumer consumer_key consumer_secret with
  | Exc e => Exc e
  | Ok c =>
      let w0 := mkWorld (mkSplitwise c None None) h lg in
      match access_token with
      | Some ((_ :: _) as d) =>
          match setAccessToken d w0 with
          | (w1, Ok _) => Ok w1
          | (_, Exc e) => Exc e
          end
      | _ => Ok w0
      end
  end.

(** [Splitwise.getAuthorizeURL] *)
Definition getAuthorizeURL : M (string * string) :=
  sw <- get_self ;;
  let client := mkClient (sw_consumer sw) None in
  resp <- client_request client REQUEST_TOKEN_URL "POST" None ;;
  if negb (String.eqb (status resp) "200") then
    raise (SplitwiseAPIException ("Invalid response " ++ status resp
                                  ++ ". Please check your consumer key and secret."))
  else
    content <- lift (decode_utf8 (body resp)) ;;
    let request_token := dict_of_pairs (parse_qsl content) in
    tok <- lift (match assoc "oauth_token" request_token with
                 | Some v => Ok v | None => Exc (KeyError "oauth_token") end) ;;
    sec <- lift (match assoc "oauth_token_secret" request_token with
                 | Some v => Ok v | None => Exc (KeyError "oauth_token_secret") end) ;;
    ret (AUTHORIZE_URL ++ "?oauth_token=" ++ tok, sec).

(** [Splitwise.__makeRequest], after [client.request] returned: the
    status checks, the JSON parse and the [errors] check. *)
Definition check_response (url : string) (resp : response) : M json :=
  if negb (String.eqb (status resp) "200") then
    if String.eqb (status resp) "401" then
      raise (SplitwiseAPIUnauthorizedException "Unauthorized")
    else
      raise (SplitwiseAPIException ("Error response " ++ status resp ++ ". " ++ reason resp))
  else
    text <- lift (decode_utf8 (body resp)) ;;
    content <- lift (json_loads_res text) ;;
    has_errors <- lift (json_contains "errors" content) ;;
    if has_errors then
      errors <- lift (json_getitem content "errors") ;;
      n <- lift (json_len errors) ;;
      if Nat.ltb 0 n then
        errs <- lift (json_getitem content "errors") ;;
        base <- lift (json_get errs "base" (JArr [JStr "unknown"])) ;;
        error_message <- lift (json_join ", " base) ;;
        raise (SplitwiseAPIException ("Exception in " ++ url ++ ": " ++ error_message))
      else ret content
    else ret content.

(** [Splitwise.__makeRequest]: the gateway of every authenticated call. *)
Definition makeRequest (url meth : string) (data : option pydict) : M json :=
  sw <- get_self ;;
  match sw_client sw with
  | None => raise (AttributeError "client")
  | Some cl =>
      resp <- (match data with
               | Some ((_ :: _) as d) => client_request cl url meth (Some (urlencode d))
               | _ => client_request cl url meth None
               end) ;;
      check_response url resp
  end.

(** [Splitwise.__prepareOptionsUrl] *)
Definition prepareOptionsUrl (options : pydict) : string := "?" ++ urlencode options.

(** The optional filters of [getExpenses], in the order of its parameters
    (the order in which [locals()] lists them); [None] is Python's [None]. *)
Record expense_filters := mkFilters {
  offset : option pyval; limit : option pyval; group_id : option pyval;
  friendship_id : option pyval; dated_after : option pyval; dated_before : option pyval;
  updated_after : option pyval; updated_before : option pyval }.

Definition no_filters := mkFilters None None None None None None None None.

(** The loop over [dict(locals())] that copies every parameter other than
    [self] and [options] whose value is not [None]. *)
Definition expense_options (f : expense_filters) : pydict :=
  fold_left (fun options '(param, v) =>
               match v with Some x => dict_set param x options | None => options end)
            [("offset", offset f); ("limit", limit f); ("group_id", group_id f);
             ("friendship_id", friendship_id f); ("dated_after", dated_after f);
             ("dated_before", dated_before f); ("updated_after", updated_after f);
             ("updated_before", updated_before f)] [].

Definition getExpenses_url (f : expense_filters) : string :=
  GET_EXPENSES_URL ++ prepareOptionsUrl (expense_options f).

(** [for x in v] over a Python value. *)
Definition py_iter (v : pyval) : res (list pyval) :=
  match v with
  | VList l => Ok l
  | VStr s => Ok (map VStr (utf8_chars s))
  | _ => Exc (TypeError "object is not iterable")
  end.

(** The inner loop of [setUserArray]: [for key in user_dict], writing
    [user_array["users__" + str(count) + "__" + gen_key] = user_dict[key]].
    [size0] is the size of [user_dict] when iteration started: a dictionary
    iterator raises [RuntimeError] once the size has changed. *)
Fixpoint copy_fields (count src target size0 : nat) (keys : list string) : M unit :=
  match keys with
  | [] => ret tt
  | key :: keys' =>
      d <- get_obj src ;;
      v <- lift (match assoc key d with Some v => Ok v | None => Exc (KeyError key) end) ;;
      let gen_key := if String.eqb key "id" then "user_id" else key in
      t <- get_obj target ;;
      put_obj target (dict_set ("users__" ++ str_nat count ++ "__" ++ gen_key) v t) ;;;
      d' <- get_obj src ;;
      if Nat.eqb (length d') size0 then copy_fields count src target size0 keys'
      else raise (RuntimeError "dictionary changed size during iteration")
  end.

(** The outer loop: [for count, user in enumerate(users)]. *)
Fixpoint set_users (count target : nat) (users : list pyval) : M unit :=
  match users with
  | [] => ret tt
  | user :: rest =>
      src <- (match user with VRef r => ret r | _ => raise (AttributeError "__dict__") end) ;;
      user_dict <- get_obj src ;;
      copy_fields count src target (length user_dict) (map fst user_dict) ;;;
      set_users (S count) target rest
  end.

(** [Splitwise.setUserArray(users, user_array)], [user_array] being the
    [__dict__] of the heap object [user_array]. *)
Definition setUserArray (users : pyval) (user_array : nat) : M unit :=
  l <- lift (py_iter users) ;;
  set_users 0 user_array l.

(** The entity classes ([CurrentUser], [User], [Friend], [Group],
    [Currency], [Category], [Expense]) live outside [__init__.py]; every
    statement below holds for any pure constructor, named by its class,
    that may raise. *)
Variable entity : Type.
Variable mk_entity : string -> json -> res entity.

Fixpoint mapM {A B} (f : A -> M B) (l : list A) : M (list B) :=
  match l with
  | [] => ret []
  | x :: l' => y <- f x ;; ys <- mapM f l' ;; ret (y :: ys)
  end.

(** [xs = []; if key in content: for x in content[key]: xs.append(Cls(x))] *)
Definition collect (cls key : string) (content : json) : M (list entity) :=
  has <- lift (json_contains key content) ;;
  if has then
    coll <- lift (json_getitem content key) ;;
    items <- lift (json_iter coll) ;;
    mapM (fun x => lift (mk_entity cls x)) items
  else ret [].

(** [x = None; if key in content: x = Cls(content[key])] *)
Definition optional (cls key : string) (content : json) : M (option entity) :=
  has <- lift (json_contains key content) ;;
  if has then
    x <- lift (json_getitem content key) ;;
    e <- lift (mk_entity cls x) ;;
    ret (Some e)
  else ret None.

Definition getCurrentUser : M entity :=
  content <- makeRequest GET_CURRENT_USER_URL "GET" None ;;
  u <- lift (json_getitem content "user") ;;
  lift (mk_entity "CurrentUser" u).

Definition getUser (id : pyval) : M entity :=
  content <- makeRequest (GET_USER_URL ++ "/" ++ py_str id) "GET" None ;;
  u <- lift (json_getitem content "user") ;;
  lift (mk_entity "User" u).

Definition getFriends : M (list entity) :=
  content <- makeRequest GET_FRIENDS_URL "GET" None ;; collect "Friend" "friends" content.

Definition getGroups : M (list entity) :=
  content <- makeRequest GET_GROUPS_URL "GET" None ;; collect "Group" "groups" content.

Definition getCurrencies : M (list entity) :=
  content <- makeRequest GET_CURRENCY_URL "GET" None ;; collect "Currency" "currencies" content.

Definition getCategories : M (list entity) :=
  content <- makeRequest GET_CATEGORY_URL "GET" None ;; collect "Category" "categories" content.

Definition getGroup (id : pyval) : M (option entity) :=
  content <- makeRequest (GET_GROUP_URL ++ "/" ++ py_str id) "GET" None ;;
  optional "Group" "group" content.

Definition getExpenses (f : expense_filters) : M (list entity) :=
  content <- makeRequest (getExpenses_url f) "GET" None ;;
  collect "Expense" "expenses" content.

Definition getExpense (id : pyval) : M (option entity) :=
  content <- makeRequest (GET_EXPENSE_URL ++ "/" ++ py_str id) "GET" None ;;
  optional "Expense" "expense" content.

(** Modelled from the spec: [Expense.getUsers] and [Group.getMembers]
    (splitwise/expense.py and splitwise/group.py, not in src/) return the
    expense's participant list and the group's member list (spec 3 and
    4.4), i.e. the attribute [users] / [members]; reading a missing
    attribute raises [AttributeError]. *)
Definition get_attr (r : nat) (name : string) : M pyval :=
  d <- get_obj r ;;
  match assoc name d with Some v => ret v | None => raise (AttributeError name) end.

Definition getUsers (expense : nat) : M pyval := get_attr expense "users".
Definition getMembers (group : nat) : M pyval := get_attr group "members".

(** [del obj.__dict__[key]] *)
Definition del_key (r : nat) (key : string) : M unit :=
  d <- get_obj r ;;
  match assoc key d with
  | Some _ => put_obj r (dict_del key d)
  | None => raise (KeyError key)
  end.

(** [x[0]] *)
Definition json_first (x : json) : res json :=
  match x with
  | JArr (y :: _) => Ok y
  | JArr [] => Exc (TypeError "list index out of range")
  | JStr s => match utf8_chars s with c :: _ => Ok (JStr c) | [] => Exc (TypeError "string index out of range") end
  | JObj _ => Exc (KeyError "0")
  | _ => Exc (TypeError "object is not subscriptable")
  end.

(** [Splitwise.createExpense(expense)], [expense] a heap reference. *)
Definition createExpense (expense : nat) : M (option entity) :=
  _ <- get_obj expense ;;
  expense_users <- getUsers expense ;;
  del_key expense "users" ;;;
  setUserArray expense_users expense ;;;
  expense_data <- get_obj expense ;;
  content <- makeRequest CREATE_EXPENSE_URL "POST" (Some expense_data) ;;
  has <- lift (json_contains "expenses" content) ;;
  if has then
    xs <- lift (json_getitem content "expenses") ;;
    n <- lift (json_len xs) ;;
    if Nat.ltb 0 n then
      x <- lift (json_first xs) ;;
      e <- lift (mk_entity "Expense" x) ;;
      ret (Some e)
    else ret None
  else ret None.

(** [Splitwise.createGroup(group)] *)
Definition createGroup (group : nat) : M (option entity) :=
  group_info <- get_obj group ;;
  (match assoc "members" group_info with
   | Some _ =>
       group_members <- getMembers group ;;
       del_key group "members" ;;;
       setUserArray group_members group
   | None => ret tt
   end) ;;;
  data <- get_obj group ;;
  content <- makeRequest CREATE_GROUP_URL "POST" (Some data) ;;
  optional "Group" "group" content.

(** [Splitwise.deleteGroup(group_id)] *)
Definition deleteGroup (group_id : pyval) : M unit :=
  _ <- makeRequest (DELETE_GROUP_URL ++ "/" ++ py_str group_id) "GET" None ;; ret tt.

(** The public calls a caller makes on an instance. *)
Inductive call : Type :=
| CSetAccessToken (access_token : pydict)
| CGetCurrentUser
| CGetUser (id : pyval)
| CGetFriends
| CGetGroups
| CGetCurrencies
| CGetCategories
| CGetGroup (id : pyval)
| CGetExpenses (f : expense_filters)
| CGetExpense (id : pyval)
| CCreateExpense (expense : nat)
| CCreateGroup (group : nat)
| CDeleteGroup (group_id : pyval).

(** One call, its result dropped (an exception is kept). *)
Definition invoke (c : call) : M unit :=
  let done_ {A} (m : M A) : M unit := _ <- m ;; ret tt in
  match c with
  | CSetAccessToken t => setAccessToken t
  | CGetCurrentUser => done_ getCurrentUser
  | CGetUser i => done_ (getUser i)
  | CGetFriends => done_ getFriends
  | CGetGroups => done_ getGroups
  | CGetCurrencies => done_ getCurrencies
  | CGetCategories => done_ getCategories
  | CGetGroup i => done_ (getGroup i)
  | CGetExpenses f => done_ (getExpenses f)
  | CGetExpense i => done_ (getExpense i)
  | CCreateExpense r => done_ (createExpense r)
  | CCreateGroup r => done_ (createGroup r)
  | CDeleteGroup i => deleteGroup i
  end.

(** A caller's sequence of calls on one instance; the caller catches the
    exception of a failing call and goes on with the next one. *)
Fixpoint run_calls (cs : list call) (w : world) : world :=
  match cs with
  | [] => w
  | c :: cs' => run_calls cs' (fst (invoke c w))
  end.

End Client.

Section AccessToken.

Variable transport : list request -> request -> response.

(** The value [oauth.generate_verifier()] returns; [set_verifier] uses it
    when it is given no verifier. *)
Variable generated_verifier : pyval.

(** [token.set_verifier(verifier)] *)
Definition set_verifier (tok : token) (verifier : pyval) : token :=
  mkToken (tk_key tok) (tk_secret tok)
          (Some (match verifier with VNone => generated_verifier | v => v end)).

(** [Splitwise.getAccessToken]: the returned dictionary maps [str] to [str]. *)
Definition getAccessToken (oauth_token oauth_token_secret oauth_verifier : pyval)
  : M (list (string * string)) :=
  token0 <- lift (oauth_Token oauth_token oauth_token_secret) ;;
  let token := set_verifier token0 oauth_verifier in
  sw <- get_self ;;
  let client := mkClient (sw_consumer sw) (Some token) in
  resp <- client_request transport client ACCESS_TOKEN_URL "POST" None ;;
  if negb (String.eqb (status resp) "200") then
    raise (SplitwiseAPIException ("Invalid response " ++ status resp
                                  ++ ". Please check your consumer key and secret."))
  else
    content <- lift (decode_utf8 (body resp)) ;;
    ret (dict_of_pairs (parse_qsl content)).

End AccessToken.

(* ------------------------------------------------------------------ *)
(** ** The request gateway *)

(** The body [__makeRequest] sends: [urlencode(data)] when [data] is a
    non-empty dictionary (truthy), none otherwise. *)
Definition request_body (data : option pydict) : option string :=
  match data with Some ((_ :: _) as d) => Some (urlencode d) | _ => None end.

(* ------------------------------------------------------------------ *)
(** ** Definitions used by the statements below *)

(** The request the gateway sends and the world right after it. *)
Definition sent (cl : oclient) (url meth : string) (data : option pydict) : request :=
  mkRequest url meth (request_body data) cl.

Definition after_send (w : world) (rq : request) : world :=
  mkWorld (self w) (heap w) (log w ++ [rq]).

(** A client holding an access token, and canned responses. *)
Definition consumer0 := mkConsumer (VStr "ck") (VStr "cs").
Definition token0 := mkToken (VStr "tok") (VStr "tok_secret") None.
Definition client0 := mkClient consumer0 (Some token0).
Definition world0 := mkWorld (mkSplitwise consumer0 (Some token0) (Some client0)) [] [].

Definition answer (st rsn bdy : string) : list request -> request -> response :=
  fun _ _ => mkResponse st rsn bdy.

Definition parses_to (j : json) : string -> option json := fun _ => Some j.

Definition env_bad_request :=
  JObj [("errors", JObj [("base", JArr [JStr "bad request"])])].

(** The step leaves the whole world as it is. *)
Definition world_pure {A} (m : M A) : Prop := forall w, fst (m w) = w.

(** The step may change the heap only: no change to the client, no request. *)
Definition heap_only {A} (m : M A) : Prop :=
  forall w, self (fst (m w)) = self w /\ log (fst (m w)) = log w.

(** Every request the step sends is signed by [cl], and the client object
    is left as it is. *)
Definition signed_by {A} (cl : oclient) (m : M A) : Prop :=
  forall w, sw_client (self w) = Some cl ->
  self (fst (m w)) = self w /\
  exists new, log (fst (m w)) = (log w ++ new)%list /\ Forall (fun rq => rq_signer rq = cl) new.

(** Without a client object the step raises and sends nothing. *)
Definition fails_without_client {A} (m : M A) : Prop :=
  forall w, sw_client (self w) = None ->
  self (fst (m w)) = self w /\ log (fst (m w)) = log w /\ exists e, snd (m w) = Exc e.

(** A call other than [setAccessToken]. *)
Definition not_set (c : call) : Prop :=
  match c with CSetAccessToken _ => False | _ => True end.

(** The filters that are set, in parameter order. *)
Definition set_filter_names (f : expense_filters) : list string :=
  flat_map (fun '(p, v) => match v with Some _ => [p] | None => [] end)
           [("offset", offset f); ("limit", limit f); ("group_id", group_id f);
            ("friendship_id", friendship_id f); ("dated_after", dated_after f);
            ("dated_before", dated_before f); ("updated_after", updated_after f);
            ("updated_before", updated_before f)].

Definition filters_5_10 : expense_filters :=
  mkFilters None (Some (VInt 10)) (Some (VInt 5)) None None None None None.

(** The heap object [r], when it exists, has no attribute [name]. *)
Definition lacks (r : nat) (name : string) (w : world) : Prop :=
  forall d, nth_error (heap w) r = Some d -> assoc name d = None.

Definition preserves {A} (P : world -> Prop) (m : M A) : Prop := forall w, P w -> P (fst (m w)).
Definition ensures {A} (P : world -> Prop) (m : M A) : Prop := forall w, P (fst (m w)).

(** Following the spec (4.4): the entity at position [i] contributes the
    key [users__<i>__<field>] for each of its fields, [id] being written
    [user_id]. *)
Definition flat_key (i : nat) (field : string) : string :=
  "users__" ++ str_nat i ++ "__" ++ (if String.eqb field "id" then "user_id" else field).

Fixpoint flatten_spec (i : nat) (users : list pydict) : list (string * pyval) :=
  match users with
  | [] => []
  | u :: us => (map (fun '(k, v) => (flat_key i k, v)) u ++ flatten_spec (S i) us)%list
  end.

(** Writing the pairs into a dictionary in order. *)
Definition apply_writes (ws : list (string * pyval)) (t : pydict) : pydict :=
  fold_left (fun d '(k, v) => dict_set k v d) ws t.

Definition entity_json : string -> json -> res json := fun _ j => Ok j.

Definition token_body := "oauth_token=abc&oauth_token_secret=xyz".

Definition access_token0 : pydict :=
  [("oauth_token", VStr "tok"); ("oauth_token_secret", VStr "tok_secret")].

Definition world_no_token := mkWorld (mkSplitwise consumer0 None None) [] [].

Definition user_a : pydict := [("id", VInt 7); ("paid_share", VStr "10.00")].
Definition user_b : pydict := [("id", VInt 9); ("owed_share", VStr "10.00")].
Definition expense_a : pydict := [("cost", VStr "10.00")].
Definition heap_a : list pydict := [expense_a; user_a; user_b].

(** ** Definitions used by the further properties below *)

(** Characters that [quote_plus] never emits as such in a pair: no [&],
    no [=], nothing outside ASCII. *)
Fixpoint qs_safe (s : string) : bool :=
  match s with
  | EmptyString => true
  | String c s' => negb (Ascii.eqb c "&") && negb (Ascii.eqb c "=")
                   && Nat.ltb (nat_of_ascii c) 128 && qs_safe s'
  end.

(** The string has no [&] separator. *)
Fixpoint amp_free (s : string) : bool :=
  match s with
  | EmptyString => true
  | String c s' => negb (Ascii.eqb c "&") && amp_free s'
  end.

(** A dictionary from [str] to [str], as a [pydict]. *)
Definition str_pairs (l : list (string * string)) : pydict :=
  map (fun '(k, v) => (k, VStr v)) l.

(** [parse_qsl] drops pairs with a blank value ([keep_blank_values=False]). *)
Definition nonblank (l : list (string * string)) : list (string * string) :=
  filter (fun '(_, v) => negb (String.eqb v "")) l.

(** Every byte is below 128. *)
Fixpoint is_ascii (s : string) : bool :=
  match s with
  | EmptyString => true
  | String c s' => Nat.ltb (nat_of_ascii c) 128 && is_ascii s'
  end.

(** The filters of [getExpenses] that are set, with their values, in
    parameter order. *)
Definition set_filters (f : expense_filters) : list (string * pyval) :=
  flat_map (fun '(p, v) => match v with Some x => [(p, x)] | None => [] end)
           [("offset", offset f); ("limit", limit f); ("group_id", group_id f);
            ("friendship_id", friendship_id f); ("dated_after", dated_after f);
            ("dated_before", dated_before f); ("updated_after", updated_after f);
            ("updated_before", updated_before f)].

Ltac run_gateway Hcl :=
  unfold makeRequest, bind, get_self, client_request; rewrite Hcl.

Section Gateway.

Variable transport : list request -> request -> response.
Variable json_loads : string -> option json.

Lemma makeRequest_send (w : world) (cl : oclient) (url meth : string) (data : option pydict) :
  sw_client (self w) = Some cl ->
  makeRequest transport json_loads url meth data w
  = check_response json_loads url (transport (log w) (sent cl url meth data))
                   (after_send w (sent cl url meth data)).
Proof.
  intros Hcl. run_gateway Hcl.
  destruct data as [[|p d]|]; reflexivity.
Qed.

Lemma assoc_In {A} (k : string) (v : A) (m : list (string * A)) :
  assoc k m = Some v -> In (k, v) m.
Proof.
  induction m as [|[k' v'] m IH]; cbn; [discriminate|].
  destruct (String.eqb_spec k k') as [->|_]; [intros [= ->]; left; reflexivity|].
  intros H; right; exact (IH H).
Qed.

Lemma json_join_strs (sep : string) (msgs : list string) :
  json_join sep (JArr (map JStr msgs)) = Ok (py_join sep msgs).
Proof.
  unfold json_join; cbn [json_iter].
  enough (json_strs (map JStr msgs) = Ok msgs) as -> by reflexivity.
  induction msgs as [|x msgs IH]; cbn; [reflexivity|]. rewrite IH; reflexivity.
Qed.

Ltac at_200 Hcl Hst Hutf Hjs :=
  rewrite (makeRequest_send _ _ _ _ _ Hcl); unfold check_response;
  rewrite Hst; cbn [String.eqb Ascii.eqb Bool.eqb negb bind lift ret raise];
  unfold decode_utf8; rewrite Hutf; unfold json_loads_res; rewrite Hjs;
  cbn [json_contains bind lift ret raise].

(** C3: when the transport status is not ["200"] the gateway raises
    before the body is looked at: [SplitwiseAPIUnauthorizedException] for
    ["401"] whatever the body, otherwise [SplitwiseAPIException] with the
    status and the reason phrase. *)
Theorem makeRequest_non_200 (w : world) (cl : oclient) (url meth : string)
        (data : option pydict) :
  sw_client (self w) = Some cl ->
  status (transport (log w) (sent cl url meth data)) <> "200" ->
  makeRequest transport json_loads url meth data w
  = (after_send w (sent cl url meth data),
     Exc (if String.eqb (status (transport (log w) (sent cl url meth data))) "401"
          then SplitwiseAPIUnauthorizedException "Unauthorized"
          else SplitwiseAPIException
                 ("Error response " ++ status (transport (log w) (sent cl url meth data))
                  ++ ". " ++ reason (transport (log w) (sent cl url meth data))))).
Proof.
  intros Hcl Hst. rewrite (makeRequest_send _ _ _ _ _ Hcl). unfold check_response.
  destruct (String.eqb_spec (status (transport (log w) (sent cl url meth data))) "200")
    as [E|_]; [contradiction|].
  cbn [negb]. destruct (String.eqb _ "401"); reflexivity.
Qed.

(** C4: a 200 envelope whose [errors] entry is the empty object is
    returned as it is. *)
Theorem makeRequest_empty_errors (w : world) (cl : oclient) (url meth : string)
        (data : option pydict) (m : list (string * json)) :
  sw_client (self w) = Some cl ->
  status (transport (log w) (sent cl url meth data)) = "200" ->
  utf8_valid (body (transport (log w) (sent cl url meth data))) = true ->
  json_loads (body (transport (log w) (sent cl url meth data))) = Some (JObj m) ->
  assoc "errors" m = Some (JObj []) ->
  makeRequest transport json_loads url meth data w
  = (after_send w (sent cl url meth data), Ok (JObj m)).
Proof.
  intros Hcl Hst Hutf Hjs He. at_200 Hcl Hst Hutf Hjs.
  rewrite He. cbn. rewrite He. reflexivity.
Qed.

(** The error path of a 200 envelope whose [errors] entry is a non-empty
    object [errs]: the raised message joins whatever [errs.get('base',
    ['unknown'])] yields. *)
Lemma makeRequest_errors_obj (w : world) (cl : oclient) (url meth : string)
      (data : option pydict) (m errs : list (string * json)) :
  sw_client (self w) = Some cl ->
  status (transport (log w) (sent cl url meth data)) = "200" ->
  utf8_valid (body (transport (log w) (sent cl url meth data))) = true ->
  json_loads (body (transport (log w) (sent cl url meth data))) = Some (JObj m) ->
  assoc "errors" m = Some (JObj errs) ->
  errs <> [] ->
  forall msgs,
  json_join ", " (match assoc "base" errs with Some b => b | None => JArr [JStr "unknown"] end)
    = Ok (py_join ", " msgs) ->
  makeRequest transport json_loads url meth data w
  = (after_send w (sent cl url meth data),
     Exc (SplitwiseAPIException ("Exception in " ++ url ++ ": " ++ py_join ", " msgs))).
Proof.
  intros Hcl Hst Hutf Hjs He Hne msgs Hj. at_200 Hcl Hst Hutf Hjs.
  destruct errs as [|p errs]; [contradiction|].
  assert (Hg : json_get (JObj (p :: errs)) "base" (JArr [JStr "unknown"])
               = Ok (match assoc "base" (p :: errs) with
                     | Some b => b | None => JArr [JStr "unknown"] end))
    by (cbn [json_get]; destruct (assoc "base" (p :: errs)); reflexivity).
  rewrite He. unfold bind, lift, raise, ret. cbn [json_getitem json_len].
  rewrite He. cbn [length Nat.ltb Nat.leb]. rewrite Hg, Hj. reflexivity.
Qed.

(** C1: a 200 envelope whose [errors] entry is a non-empty object of
    message lists raises [SplitwiseAPIException] whose message joins the
    [base] messages, or says [unknown] when there is no [base]. *)
Theorem makeRequest_errors_base (w : world) (cl : oclient) (url meth : string)
        (data : option pydict) (m errs : list (string * json)) :
  sw_client (self w) = Some cl ->
  status (transport (log w) (sent cl url meth data)) = "200" ->
  utf8_valid (body (transport (log w) (sent cl url meth data))) = true ->
  json_loads (body (transport (log w) (sent cl url meth data))) = Some (JObj m) ->
  assoc "errors" m = Some (JObj errs) ->
  errs <> [] ->
  (assoc "base" errs = None ->
   makeRequest transport json_loads url meth data w
   = (after_send w (sent cl url meth data),
      Exc (SplitwiseAPIException ("Exception in " ++ url ++ ": unknown"))))
  /\ (forall msgs, assoc "base" errs = Some (JArr (map JStr msgs)) ->
      makeRequest transport json_loads url meth data w
      = (after_send w (sent cl url meth data),
         Exc (SplitwiseAPIException ("Exception in " ++ url ++ ": " ++ py_join ", " msgs)))).
Proof.
  intros Hcl Hst Hutf Hjs He Hne. split.
  - intros Hb. apply (makeRequest_errors_obj w cl url meth data m errs Hcl Hst Hutf Hjs He Hne ["unknown"]).
    rewrite Hb. reflexivity.
  - intros msgs Hb. apply (makeRequest_errors_obj w cl url meth data m errs Hcl Hst Hutf Hjs He Hne msgs).
    rewrite Hb. apply json_join_strs.
Qed.

(** C10: the failure test counts the keys of the [errors] object, not the
    messages: a 200 envelope whose [errors] object has at least one key
    raises [SplitwiseAPIException], also when every message list is empty;
    then the message text after the URL is empty, or [unknown] when there
    is no [base] key. *)
Theorem makeRequest_errors_counts_keys (w : world) (cl : oclient) (url meth : string)
        (data : option pydict) (m errs : list (string * json)) :
  sw_client (self w) = Some cl ->
  status (transport (log w) (sent cl url meth data)) = "200" ->
  utf8_valid (body (transport (log w) (sent cl url meth data))) = true ->
  json_loads (body (transport (log w) (sent cl url meth data))) = Some (JObj m) ->
  assoc "errors" m = Some (JObj errs) ->
  errs <> [] ->
  (forall k v, In (k, v) errs -> exists msgs, v = JArr (map JStr msgs)) ->
  (exists msg, snd (makeRequest transport json_loads url meth data w)
               = Exc (SplitwiseAPIException msg))
  /\ ((forall k v, In (k, v) errs -> v = JArr []) ->
      snd (makeRequest transport json_loads url meth data w)
      = Exc (SplitwiseAPIException ("Exception in " ++ url ++ ": "
              ++ match assoc "base" errs with Some _ => "" | None => "unknown" end))).
Proof.
  intros Hcl Hst Hutf Hjs He Hne Hmsgs. split.
  - destruct (assoc "base" errs) as [b|] eqn:Hb.
    + destruct (Hmsgs "base" b (assoc_In _ _ _ Hb)) as [msgs ->].
      eexists. rewrite (makeRequest_errors_obj w cl url meth data m errs Hcl Hst Hutf Hjs He Hne msgs).
      * reflexivity.
      * rewrite Hb. apply json_join_strs.
    + eexists. rewrite (makeRequest_errors_obj w cl url meth data m errs Hcl Hst Hutf Hjs He Hne ["unknown"]).
      * reflexivity.
      * rewrite Hb. reflexivity.
  - intros Hempty. destruct (assoc "base" errs) as [b|] eqn:Hb.
    + pose proof (Hempty "base" b (assoc_In _ _ _ Hb)) as ->.
      rewrite (makeRequest_errors_obj w cl url meth data m errs Hcl Hst Hutf Hjs He Hne []).
      * reflexivity.
      * rewrite Hb. reflexivity.
    + rewrite (makeRequest_errors_obj w cl url meth data m errs Hcl Hst Hutf Hjs He Hne ["unknown"]).
      * reflexivity.
      * rewrite Hb. reflexivity.
Qed.

End Gateway.

Lemma makeRequest_errors_base_witness :
  exists msg,
    makeRequest (answer "200" "OK" "{}") (parses_to env_bad_request) GET_FRIENDS_URL "GET" None world0
    = (after_send world0 (sent client0 GET_FRIENDS_URL "GET" None),
       Exc (SplitwiseAPIException msg))
    /\ str_contains "bad request" msg = true.
Proof.
  eexists. split.
  - apply (proj2 (makeRequest_errors_base (answer "200" "OK" "{}") (parses_to env_bad_request)
                    world0 client0 GET_FRIENDS_URL "GET" None
                    [("errors", JObj [("base", JArr [JStr "bad request"])])]
                    [("base", JArr [JStr "bad request"])]
                    eq_refl eq_refl eq_refl eq_refl eq_refl ltac:(discriminate))
                 ["bad request"] eq_refl).
  - vm_compute. reflexivity.
Defined.

Lemma makeRequest_non_200_witness :
  makeRequest (answer "401" "Unauthorized" "<html>denied</html>") (parses_to (JObj []))
              GET_CURRENT_USER_URL "GET" None world0
  = (after_send world0 (sent client0 GET_CURRENT_USER_URL "GET" None),
     Exc (SplitwiseAPIUnauthorizedException "Unauthorized"))
  /\ makeRequest (answer "500" "Internal Server Error" "") (parses_to (JObj []))
                 GET_CURRENT_USER_URL "GET" None world0
  = (after_send world0 (sent client0 GET_CURRENT_USER_URL "GET" None),
     Exc (SplitwiseAPIException "Error response 500. Internal Server Error")).
Proof.
  split.
  - apply (makeRequest_non_200 (answer "401" "Unauthorized" "<html>denied</html>") (parses_to (JObj []))
             world0 client0 GET_CURRENT_USER_URL "GET" None eq_refl ltac:(discriminate)).
  - apply (makeRequest_non_200 (answer "500" "Internal Server Error" "") (parses_to (JObj []))
             world0 client0 GET_CURRENT_USER_URL "GET" None eq_refl ltac:(discriminate)).
Defined.

Lemma makeRequest_empty_errors_witness :
  makeRequest (answer "200" "OK" "errors-empty") (parses_to (JObj [("errors", JObj [])]))
              GET_GROUPS_URL "GET" None world0
  = (after_send world0 (sent client0 GET_GROUPS_URL "GET" None), Ok (JObj [("errors", JObj [])])).
Proof.
  apply (makeRequest_empty_errors (answer "200" "OK" "errors-empty")
           (parses_to (JObj [("errors", JObj [])])) world0 client0 GET_GROUPS_URL "GET" None
           [("errors", JObj [])] eq_refl eq_refl eq_refl eq_refl eq_refl).
Defined.

Lemma makeRequest_errors_counts_keys_witness :
  snd (makeRequest (answer "200" "OK" "errors-base-empty")
                   (parses_to (JObj [("errors", JObj [("base", JArr [])])]))
                   GET_GROUPS_URL "GET" None world0)
  = Exc (SplitwiseAPIException ("Exception in " ++ GET_GROUPS_URL ++ ": ")).
Proof.
  apply (proj2 (makeRequest_errors_counts_keys (answer "200" "OK" "errors-base-empty")
                  (parses_to (JObj [("errors", JObj [("base", JArr [])])]))
                  world0 client0 GET_GROUPS_URL "GET" None
                  [("errors", JObj [("base", JArr [])])] [("base", JArr [])]
                  eq_refl eq_refl eq_refl eq_refl eq_refl ltac:(discriminate)
                  ltac:(intros k v [[= _ <-]|[]]; exists []; reflexivity))
               ltac:(intros k v [[= _ <-]|[]]; reflexivity)).
Defined.

(* ------------------------------------------------------------------ *)
(** ** Framing: what each step may change *)

Create HintDb frame.

Lemma pure_heap_only {A} (m : M A) : world_pure m -> heap_only m.
Proof. intros H w. rewrite H. split; reflexivity. Qed.

Lemma bind_pure {A B} (c : M A) (k : A -> M B) :
  world_pure c -> (forall a, world_pure (k a)) -> world_pure (bind c k).
Proof.
  intros Hc Hk w. unfold bind. specialize (Hc w).
  destruct (c w) as [w' [a|e]]; cbn in *; subst; [apply Hk|reflexivity].
Qed.

Lemma bind_heap_only {A B} (c : M A) (k : A -> M B) :
  heap_only c -> (forall a, heap_only (k a)) -> heap_only (bind c k).
Proof.
  intros Hc Hk w. unfold bind. specialize (Hc w).
  destruct (c w) as [w' [a|e]]; cbn in *; [|exact Hc].
  destruct (Hk a w') as [H1 H2]. destruct Hc as [E1 E2].
  rewrite H1, H2, E1, E2. split; reflexivity.
Qed.

Lemma ret_pure {A} (a : A) : world_pure (ret a).
Proof. intros w; reflexivity. Qed.
Lemma raise_pure {A} (e : exn) : world_pure (@raise A e).
Proof. intros w; reflexivity. Qed.
Lemma lift_pure {A} (r : res A) : world_pure (lift r).
Proof. intros w; reflexivity. Qed.
Lemma get_obj_pure (r : nat) : world_pure (get_obj r).
Proof. intros w; unfold get_obj; destruct (nth_error (heap w) r); reflexivity. Qed.
Lemma get_self_pure : world_pure get_self.
Proof. intros w; reflexivity. Qed.
Lemma put_obj_heap_only (r : nat) (d : pydict) : heap_only (put_obj r d).
Proof. intros w; split; reflexivity. Qed.

#[export] Hint Resolve ret_pure raise_pure lift_pure get_obj_pure get_self_pure
  put_obj_heap_only pure_heap_only : frame.

Ltac frame :=
  repeat match goal with
  | |- world_pure (bind _ _) => apply bind_pure; [|intros ?]
  | |- heap_only (bind _ _) => apply bind_heap_only; [|intros ?]
  | |- world_pure (if ?b then _ else _) => destruct b
  | |- heap_only (if ?b then _ else _) => destruct b
  | |- world_pure (match ?x with _ => _ end) => destruct x
  | |- heap_only (match ?x with _ => _ end) => destruct x
  end; auto with frame.

Section Frame.

Variable transport : list request -> request -> response.
Variable json_loads : string -> option json.
Variable entity : Type.
Variable mk_entity : string -> json -> res entity.

Lemma mapM_lift_pure {A B} (f : A -> res B) (l : list A) :
  world_pure (mapM (fun x => lift (f x)) l).
Proof. induction l as [|x l IH]; cbn [mapM]; frame. Qed.

Lemma check_response_pure (url : string) (resp : response) :
  world_pure (check_response json_loads url resp).
Proof. unfold check_response. frame. Qed.

Lemma collect_pure (cls key : string) (content : json) :
  world_pure (collect entity mk_entity cls key content).
Proof. unfold collect. frame. apply mapM_lift_pure. Qed.

Lemma optional_pure (cls key : string) (content : json) :
  world_pure (optional entity mk_entity cls key content).
Proof. unfold optional. frame. Qed.

Lemma get_attr_pure (r : nat) (name : string) : world_pure (get_attr r name).
Proof. unfold get_attr. frame. Qed.

Lemma del_key_heap_only (r : nat) (key : string) : heap_only (del_key r key).
Proof. unfold del_key. frame. Qed.

Lemma copy_fields_heap_only (count src target size0 : nat) (keys : list string) :
  heap_only (copy_fields count src target size0 keys).
Proof.
  induction keys as [|key keys IH]; cbn [copy_fields]; frame.
Qed.

Lemma setUserArray_heap_only (users : pyval) (target : nat) :
  heap_only (setUserArray users target).
Proof.
  unfold setUserArray. frame. generalize 0.
  induction a as [|u l IH]; intros n; cbn [set_users]; frame.
  apply copy_fields_heap_only.
Qed.

Lemma getUsers_pure (r : nat) : world_pure (getUsers r).
Proof. apply get_attr_pure. Qed.
Lemma getMembers_pure (r : nat) : world_pure (getMembers r).
Proof. apply get_attr_pure. Qed.

#[local] Hint Resolve mapM_lift_pure check_response_pure collect_pure optional_pure
  get_attr_pure getUsers_pure getMembers_pure del_key_heap_only setUserArray_heap_only : frame.

Lemma makeRequest_no_client (url meth : string) (data : option pydict) (w : world) :
  sw_client (self w) = None ->
  makeRequest transport json_loads url meth data w = (w, Exc (AttributeError "client")).
Proof. intros H. unfold makeRequest, bind, get_self. rewrite H. reflexivity. Qed.

Lemma makeRequest_logs (url meth : string) (data : option pydict) (w : world) (cl : oclient) :
  sw_client (self w) = Some cl ->
  fst (makeRequest transport json_loads url meth data w) = after_send w (sent cl url meth data).
Proof.
  intros H. rewrite (makeRequest_send transport json_loads w cl url meth data H).
  apply check_response_pure.
Qed.

Lemma heap_only_signed {A} (cl : oclient) (m : M A) : heap_only m -> signed_by cl m.
Proof.
  intros H w _. destruct (H w) as [H1 H2]. split; [exact H1|].
  exists []. rewrite H2, app_nil_r. split; [reflexivity|constructor].
Qed.

Lemma bind_signed {A B} (cl : oclient) (c : M A) (k : A -> M B) :
  signed_by cl c -> (forall a, signed_by cl (k a)) -> signed_by cl (bind c k).
Proof.
  intros Hc Hk w Hw. unfold bind. destruct (Hc w Hw) as [E1 [n1 [L1 F1]]].
  destruct (c w) as [w' [a|e]]; cbn in *; [|split; [exact E1|exists n1; split; assumption]].
  assert (Hw' : sw_client (self w') = Some cl) by (rewrite E1; exact Hw).
  destruct (Hk a w' Hw') as [E2 [n2 [L2 F2]]]. split; [congruence|].
  exists (n1 ++ n2)%list. rewrite L2, L1, app_assoc. split; [reflexivity|].
  apply Forall_app; split; assumption.
Qed.

Lemma fails_bind_first {A B} (c : M A) (k : A -> M B) :
  fails_without_client c -> fails_without_client (bind c k).
Proof.
  intros Hc w Hw. unfold bind. destruct (Hc w Hw) as [E1 [L1 [e He]]].
  destruct (c w) as [w' [a|e']]; cbn in *; [discriminate|].
  split; [exact E1|split; [exact L1|exists e'; reflexivity]].
Qed.

Lemma fails_bind_after {A B} (c : M A) (k : A -> M B) :
  heap_only c -> (forall a, fails_without_client (k a)) -> fails_without_client (bind c k).
Proof.
  intros Hc Hk w Hw. unfold bind. destruct (Hc w) as [E1 L1].
  destruct (c w) as [w' [a|e]]; cbn in *.
  - assert (Hw' : sw_client (self w') = None) by (rewrite E1; exact Hw).
    destruct (Hk a w' Hw') as [E2 [L2 He]]. split; [congruence|split; [congruence|exact He]].
  - split; [exact E1|split; [exact L1|exists e; reflexivity]].
Qed.

Lemma makeRequest_signed (cl : oclient) (url meth : string) (data : option pydict) :
  signed_by cl (makeRequest transport json_loads url meth data).
Proof.
  intros w Hw. rewrite (makeRequest_logs url meth data w cl Hw). cbn.
  split; [reflexivity|]. exists [sent cl url meth data]. split; [reflexivity|].
  constructor; [reflexivity|constructor].
Qed.

Lemma makeRequest_fails (url meth : string) (data : option pydict) :
  fails_without_client (makeRequest transport json_loads url meth data).
Proof.
  intros w Hw. rewrite (makeRequest_no_client url meth data w Hw).
  split; [reflexivity|split; [reflexivity|eexists; reflexivity]].
Qed.

#[local] Hint Resolve makeRequest_signed makeRequest_fails : frame.

Ltac signed :=
  repeat match goal with
  | |- signed_by _ (bind _ _) => apply bind_signed; [|intros ?]
  | |- signed_by _ (if ?b then _ else _) => destruct b
  | |- signed_by _ (match ?x with _ => _ end) => destruct x
  | |- signed_by _ (makeRequest _ _ _ _ _) => apply makeRequest_signed
  | |- signed_by _ _ => apply heap_only_signed; frame
  end.

Ltac fails :=
  match goal with
  | |- fails_without_client (makeRequest _ _ _ _ _) => apply makeRequest_fails
  | |- fails_without_client (bind _ _) =>
      first [ apply fails_bind_first; solve [fails]
            | apply fails_bind_after; [frame|intros ?; fails] ]
  end.

Lemma invoke_signed (cl : oclient) (c : call) :
  not_set c -> signed_by cl (invoke transport json_loads entity mk_entity c).
Proof.
  destruct c; cbn [not_set invoke]; intros []; 
    unfold getCurrentUser, getUser, getFriends, getGroups, getCurrencies, getCategories,
      getGroup, getExpenses, getExpense, createExpense, createGroup, deleteGroup;
    signed.
Qed.

Lemma invoke_fails (c : call) :
  not_set c -> fails_without_client (invoke transport json_loads entity mk_entity c).
Proof.
  destruct c; cbn [not_set invoke]; intros [];
    unfold getCurrentUser, getUser, getFriends, getGroups, getCurrencies, getCategories,
      getGroup, getExpenses, getExpense, createExpense, createGroup, deleteGroup;
    fails.
Qed.

Lemma setAccessToken_sets (d : pydict) (key secret : pyval) (w : world) :
  assoc "oauth_token" d = Some key -> assoc "oauth_token_secret" d = Some secret ->
  key <> VNone -> secret <> VNone ->
  setAccessToken d w
  = (mkWorld (mkSplitwise (sw_consumer (self w)) (Some (mkToken key secret None))
                          (Some (mkClient (sw_consumer (self w)) (Some (mkToken key secret None)))))
             (heap w) (log w), Ok tt).
Proof.
  intros Hk Hs Nk Ns. unfold setAccessToken, bind, lift, get_self, put_self.
  rewrite Hk, Hs.
  destruct key; [contradiction| | | | |]; (destruct secret; [contradiction| | | | |]);
    reflexivity.
Qed.

Lemma run_calls_no_client (calls : list call) (w : world) :
  Forall not_set calls -> sw_client (self w) = None ->
  self (run_calls transport json_loads entity mk_entity calls w) = self w
  /\ log (run_calls transport json_loads entity mk_entity calls w) = log w.
Proof.
  intros Hall. revert w. induction Hall as [|c calls Hc _ IH]; intros w Hw; cbn [run_calls].
  - split; reflexivity.
  - destruct (invoke_fails c Hc w Hw) as [E1 [L1 _]].
    destruct (IH (fst (invoke transport json_loads entity mk_entity c w))) as [E2 L2];
      [rewrite E1; exact Hw|].
    split; congruence.
Qed.

Lemma run_calls_signed (cl : oclient) (calls : list call) (w : world) :
  Forall not_set calls -> sw_client (self w) = Some cl ->
  self (run_calls transport json_loads entity mk_entity calls w) = self w
  /\ exists new, log (run_calls transport json_loads entity mk_entity calls w) = (log w ++ new)%list
                 /\ Forall (fun rq => rq_signer rq = cl) new.
Proof.
  intros Hall. revert w. induction Hall as [|c calls Hc _ IH]; intros w Hw; cbn [run_calls].
  - split; [reflexivity|]. exists []. rewrite app_nil_r. split; [reflexivity|constructor].
  - destruct (invoke_signed cl c Hc w Hw) as [E1 [n1 [L1 F1]]].
    destruct (IH (fst (invoke transport json_loads entity mk_entity c w))) as [E2 [n2 [L2 F2]]];
      [rewrite E1; exact Hw|].
    split; [congruence|]. exists (n1 ++ n2)%list. rewrite L2, L1, app_assoc.
    split; [reflexivity|]. apply Forall_app; split; assumption.
Qed.

(** C8: an instance built without an access token sends no request: as
    long as [setAccessToken] has not been called, every call raises and the
    request log stays as it was.  After [setAccessToken], the token stays
    on the instance and every request sent by the following calls is
    signed with it. *)
Theorem access_token_invariant (consumer_key consumer_secret : pyval) (h : list pydict)
        (lg : list request) (w : world) :
  Splitwise_new consumer_key consumer_secret None h lg = Ok w ->
  (forall calls, Forall not_set calls ->
     log (run_calls transport json_loads entity mk_entity calls w) = lg
     /\ forall c, not_set c ->
        (exists e, snd (invoke transport json_loads entity mk_entity c
                               (run_calls transport json_loads entity mk_entity calls w)) = Exc e)
        /\ log (fst (invoke transport json_loads entity mk_entity c
                            (run_calls transport json_loads entity mk_entity calls w))) = lg)
  /\ (forall calls1 d key secret calls2,
        Forall not_set calls1 -> Forall not_set calls2 ->
        assoc "oauth_token" d = Some key -> assoc "oauth_token_secret" d = Some secret ->
        key <> VNone -> secret <> VNone ->
        let w2 := run_calls transport json_loads entity mk_entity calls2
                    (fst (setAccessToken d (run_calls transport json_loads entity mk_entity calls1 w))) in
        sw_token (self w2) = Some (mkToken key secret None)
        /\ exists new, log w2 = (lg ++ new)%list
           /\ Forall (fun rq => rq_signer rq
                                = mkClient (sw_consumer (self w)) (Some (mkToken key secret None))) new).
Proof.
  unfold Splitwise_new. destruct (oauth_Consumer consumer_key consumer_secret) as [c|e];
    [|discriminate].
  intros [= <-]. split.
  - intros calls Hall.
    destruct (run_calls_no_client calls (mkWorld (mkSplitwise c None None) h lg) Hall eq_refl) as [E L]. cbn [self log] in E, L.
    split; [exact L|]. intros c0 Hc0.
    destruct (invoke_fails c0 Hc0 (run_calls transport json_loads entity mk_entity calls
                                     (mkWorld (mkSplitwise c None None) h lg))
                  ltac:(rewrite E; reflexivity))
      as [_ [L2 He]].
    split; [exact He|congruence].
  - intros calls1 d key secret calls2 H1 H2 Hk Hs Nk Ns.
    destruct (run_calls_no_client calls1 (mkWorld (mkSplitwise c None None) h lg) H1 eq_refl)
      as [E L]. cbn [self log] in E, L.
    rewrite (setAccessToken_sets d key secret _ Hk Hs Nk Ns). cbn [fst].
    rewrite E, L. cbn [sw_consumer self].
    destruct (run_calls_signed (mkClient c (Some (mkToken key secret None))) calls2
                (mkWorld (mkSplitwise c (Some (mkToken key secret None))
                                      (Some (mkClient c (Some (mkToken key secret None)))))
                         (heap (run_calls transport json_loads entity mk_entity calls1
                                  (mkWorld (mkSplitwise c None None) h lg))) lg) H2 eq_refl)
      as [E2 [n [L2 F]]].
    rewrite E2, L2. split; [reflexivity|]. exists n. split; [reflexivity|exact F].
Qed.

End Frame.

#[export] Hint Resolve mapM_lift_pure check_response_pure collect_pure optional_pure
  get_attr_pure getUsers_pure getMembers_pure del_key_heap_only setUserArray_heap_only : frame.

(* ------------------------------------------------------------------ *)
(** ** Absent payload keys *)

Section Payload.

Variable transport : list request -> request -> response.
Variable json_loads : string -> option json.
Variable entity : Type.
Variable mk_entity : string -> json -> res entity.

Lemma bind_ok {A B} (c : M A) (k : A -> M B) (w : world) (a : A) :
  snd (c w) = Ok a -> snd (bind c k w) = snd (k a (fst (c w))).
Proof. unfold bind. destruct (c w) as [w' [a'|e]]; cbn; intros H; [now inversion H|discriminate]. Qed.

Lemma collect_absent (cls key : string) (m : list (string * json)) (w : world) :
  assoc key m = None -> snd (collect entity mk_entity cls key (JObj m) w) = Ok [].
Proof. intros H. unfold collect, bind, lift, ret. cbn [json_contains]. rewrite H. reflexivity. Qed.

Lemma optional_absent (cls key : string) (m : list (string * json)) (w : world) :
  assoc key m = None -> snd (optional entity mk_entity cls key (JObj m) w) = Ok None.
Proof. intros H. unfold optional, bind, lift, ret. cbn [json_contains]. rewrite H. reflexivity. Qed.

(** C6: when the gateway returns an envelope without the expected payload
    key, [getGroup] (and [getExpense]) return [None] and the collection
    calls return the empty list. *)
Theorem absent_payload_is_empty (w : world) (m : list (string * json)) :
  (forall id, snd (makeRequest transport json_loads (GET_GROUP_URL ++ "/" ++ py_str id) "GET" None w)
              = Ok (JObj m) ->
   assoc "group" m = None ->
   snd (getGroup transport json_loads entity mk_entity id w) = Ok None)
  /\ (snd (makeRequest transport json_loads GET_FRIENDS_URL "GET" None w) = Ok (JObj m) ->
      assoc "friends" m = None ->
      snd (getFriends transport json_loads entity mk_entity w) = Ok [])
  /\ (snd (makeRequest transport json_loads GET_GROUPS_URL "GET" None w) = Ok (JObj m) ->
      assoc "groups" m = None ->
      snd (getGroups transport json_loads entity mk_entity w) = Ok [])
  /\ (snd (makeRequest transport json_loads GET_CURRENCY_URL "GET" None w) = Ok (JObj m) ->
      assoc "currencies" m = None ->
      snd (getCurrencies transport json_loads entity mk_entity w) = Ok [])
  /\ (snd (makeRequest transport json_loads GET_CATEGORY_URL "GET" None w) = Ok (JObj m) ->
      assoc "categories" m = None ->
      snd (getCategories transport json_loads entity mk_entity w) = Ok [])
  /\ (forall f, snd (makeRequest transport json_loads (getExpenses_url f) "GET" None w) = Ok (JObj m) ->
      assoc "expenses" m = None ->
      snd (getExpenses transport json_loads entity mk_entity f w) = Ok [])
  /\ (forall id, snd (makeRequest transport json_loads (GET_EXPENSE_URL ++ "/" ++ py_str id) "GET" None w)
                 = Ok (JObj m) ->
      assoc "expense" m = None ->
      snd (getExpense transport json_loads entity mk_entity id w) = Ok None).
Proof.
  repeat split; intros;
    unfold getGroup, getFriends, getGroups, getCurrencies, getCategories, getExpenses, getExpense;
    (erewrite bind_ok; [|eassumption]);
    first [apply collect_absent | apply optional_absent]; assumption.
Qed.

End Payload.

(* ------------------------------------------------------------------ *)
(** ** The [getExpenses] query and the request-token step *)

Section Requests.

Variable transport : list request -> request -> response.
Variable json_loads : string -> option json.
Variable entity : Type.
Variable mk_entity : string -> json -> res entity.

Lemma bind_world_pure_tail {A B} (c : M A) (k : A -> M B) (w : world) :
  (forall a, world_pure (k a)) -> fst (bind c k w) = fst (c w).
Proof. intros Hk. unfold bind. destruct (c w) as [w' [a|e]]; [apply Hk|reflexivity]. Qed.

(** C5: [getExpenses] sends one GET request to [getExpenses_url f]; its
    query holds exactly the filters that are set, in parameter order; with
    no filter the query is empty, with [group_id=5] and [limit=10] it is
    [limit=10&group_id=5]. *)
Theorem getExpenses_query (w : world) (cl : oclient) :
  sw_client (self w) = Some cl ->
  (forall f, log (fst (getExpenses transport json_loads entity mk_entity f w))
             = (log w ++ [sent cl (getExpenses_url f) "GET" None])%list)
  /\ (forall f, map fst (expense_options f) = set_filter_names f)
  /\ getExpenses_url no_filters = GET_EXPENSES_URL ++ "?"
  /\ getExpenses_url filters_5_10 = GET_EXPENSES_URL ++ "?limit=10&group_id=5".
Proof.
  intros Hcl. split; [|split; [|split]].
  - intros f. unfold getExpenses.
    rewrite bind_world_pure_tail by (intros; apply collect_pure).
    rewrite (makeRequest_logs transport json_loads _ _ _ w cl Hcl). reflexivity.
  - intros [[o|] [l|] [g|] [fr|] [da|] [db|] [ua|] [ub|]]; vm_compute; reflexivity.
  - vm_compute. reflexivity.
  - vm_compute. reflexivity.
Qed.

(** C7: when the request-token endpoint answers 200 with the body
    [oauth_token=abc&oauth_token_secret=xyz], [getAuthorizeURL] returns the
    authorize URL carrying [abc] and the secret [xyz]; any other status
    raises the handshake error. *)
Theorem getAuthorizeURL_roundtrip (w : world) :
  (forall rsn,
     transport (log w) (mkRequest REQUEST_TOKEN_URL "POST" None (mkClient (sw_consumer (self w)) None))
     = mkResponse "200" rsn "oauth_token=abc&oauth_token_secret=xyz" ->
     snd (getAuthorizeURL transport w)
     = Ok ("https://secure.splitwise.com/authorize?oauth_token=abc", "xyz"))
  /\ (status (transport (log w) (mkRequest REQUEST_TOKEN_URL "POST" None
                                          (mkClient (sw_consumer (self w)) None))) <> "200" ->
      snd (getAuthorizeURL transport w)
      = Exc (SplitwiseAPIException
               ("Invalid response "
                ++ status (transport (log w) (mkRequest REQUEST_TOKEN_URL "POST" None
                                                        (mkClient (sw_consumer (self w)) None)))
                ++ ". Please check your consumer key and secret."))).
Proof.
  split.
  - intros rsn H. unfold getAuthorizeURL, bind, get_self, client_request. cbn [fst snd].
    rewrite H. vm_compute. reflexivity.
  - intros H. unfold getAuthorizeURL, bind, get_self, client_request. cbn [fst snd].
    destruct (String.eqb_spec (status (transport (log w) (mkRequest REQUEST_TOKEN_URL "POST" None
                                          (mkClient (sw_consumer (self w)) None)))) "200");
      [contradiction|reflexivity].
Qed.

End Requests.

(* ------------------------------------------------------------------ *)
(** ** The heap: lookups after updates *)

Lemma nth_error_list_set_same {A} (n : nat) (x : A) (l : list A) :
  nth_error (list_set n x l) n = match nth_error l n with Some _ => Some x | None => None end.
Proof.
  revert l; induction n as [|n IH]; intros [|y l]; cbn; try reflexivity. apply IH.
Qed.

Lemma nth_error_list_set_other {A} (n m : nat) (x : A) (l : list A) :
  n <> m -> nth_error (list_set n x l) m = nth_error l m.
Proof.
  revert m l; induction n as [|n IH]; intros [|m] [|y l] H; cbn; try reflexivity;
    try (exfalso; apply H; reflexivity).
  apply IH. intros ->. apply H. reflexivity.
Qed.

Lemma assoc_dict_set_other {A} (k k' : string) (v : A) (m : list (string * A)) :
  k <> k' -> assoc k' (dict_set k v m) = assoc k' m.
Proof.
  intros Hne. induction m as [|[k0 v0] m IH]; cbn.
  - destruct (String.eqb_spec k' k) as [->|_]; [contradiction|reflexivity].
  - destruct (String.eqb_spec k k0) as [->|Hk0]; cbn.
    + destruct (String.eqb_spec k' k0) as [->|_]; [contradiction|reflexivity].
    + destruct (String.eqb k' k0); [reflexivity|exact IH].
Qed.

Lemma assoc_dict_del {A} (k : string) (m : list (string * A)) : assoc k (dict_del k m) = None.
Proof.
  induction m as [|[k0 v0] m IH]; cbn; [reflexivity|].
  destruct (String.eqb_spec k k0) as [->|Hk0]; cbn; [exact IH|].
  destruct (String.eqb_spec k k0); [contradiction|exact IH].
Qed.

(** The keys [setUserArray] writes start with [users__]. *)
Lemma flat_key_not_users (s : string) : "users__" ++ s <> "users".
Proof. discriminate. Qed.

Lemma flat_key_not_members (s : string) : "users__" ++ s <> "members".
Proof. discriminate. Qed.

Section Mutation.

Variable transport : list request -> request -> response.
Variable json_loads : string -> option json.
Variable entity : Type.
Variable mk_entity : string -> json -> res entity.

Lemma pure_preserves {A} (P : world -> Prop) (m : M A) : world_pure m -> preserves P m.
Proof. intros H w Hw. rewrite H. exact Hw. Qed.

Lemma bind_preserves {A B} (P : world -> Prop) (c : M A) (k : A -> M B) :
  preserves P c -> (forall a, preserves P (k a)) -> preserves P (bind c k).
Proof.
  intros Hc Hk w Hw. unfold bind. specialize (Hc w Hw).
  destruct (c w) as [w' [a|e]]; [apply Hk|]; exact Hc.
Qed.

Lemma bind_ensures {A B} (P : world -> Prop) (c : M A) (k : A -> M B) :
  ensures P c -> (forall a, preserves P (k a)) -> ensures P (bind c k).
Proof.
  intros Hc Hk w. unfold bind. specialize (Hc w).
  destruct (c w) as [w' [a|e]]; [apply Hk|]; exact Hc.
Qed.

(** Reading object [r] and going on with what was read. *)
Lemma bind_get_obj_ensures {B} (P : world -> Prop) (r : nat) (k : pydict -> M B) :
  (forall w, nth_error (heap w) r = None -> P w) ->
  (forall w d, nth_error (heap w) r = Some d -> P (fst (k d w))) ->
  ensures P (bind (get_obj r) k).
Proof.
  intros Hnone Hsome w. unfold bind, get_obj.
  destruct (nth_error (heap w) r) as [d|] eqn:E; [apply Hsome; exact E|apply Hnone; exact E].
Qed.

Lemma bind_get_obj_preserves {B} (P : world -> Prop) (r : nat) (k : pydict -> M B) :
  (forall w d, P w -> nth_error (heap w) r = Some d -> P (fst (k d w))) ->
  preserves P (bind (get_obj r) k).
Proof.
  intros Hsome w Hw. unfold bind, get_obj.
  destruct (nth_error (heap w) r) as [d|] eqn:E; [apply Hsome; assumption|exact Hw].
Qed.

Lemma lacks_put_other (r t : nat) (name : string) (d : pydict) (w : world) :
  r <> t -> lacks r name w -> lacks r name (fst (put_obj t d w)).
Proof.
  intros Hne H d' Hd'. cbn in Hd'. rewrite nth_error_list_set_other in Hd' by congruence.
  exact (H d' Hd').
Qed.

Lemma lacks_put_set (r : nat) (name k : string) (v : pyval) (d : pydict) (w : world) :
  k <> name -> lacks r name w -> nth_error (heap w) r = Some d ->
  lacks r name (fst (put_obj r (dict_set k v d) w)).
Proof.
  intros Hk H Hd d' Hd'. cbn in Hd'. rewrite nth_error_list_set_same, Hd in Hd'.
  injection Hd' as <-. rewrite assoc_dict_set_other by exact Hk. exact (H d Hd).
Qed.

Section Flatten.

Variable name : string.
Hypothesis flat_key_other : forall s, "users__" ++ s <> name.

Lemma bind_put_obj {B} (t : nat) (d : pydict) (k : unit -> M B) (w : world) :
  bind (put_obj t d) k w = k tt (fst (put_obj t d w)).
Proof. reflexivity. Qed.

Lemma copy_fields_preserves (r count src target size0 : nat) (keys : list string) :
  preserves (lacks r name) (copy_fields count src target size0 keys).
Proof.
  induction keys as [|key keys IH]; cbn [copy_fields]; [apply pure_preserves, ret_pure|].
  apply bind_preserves; [apply pure_preserves, get_obj_pure|intros d].
  apply bind_preserves; [apply pure_preserves, lift_pure|intros v].
  apply bind_get_obj_preserves. intros w t Hw Ht.
  rewrite bind_put_obj.
  set (key' := "users__" ++ str_nat count ++ "__" ++ (if String.eqb key "id" then "user_id" else key)).
  assert (Hw' : lacks r name (fst (put_obj target (dict_set key' v t) w))).
  { destruct (Nat.eq_dec r target) as [->|Hne].
    - apply lacks_put_set; [apply flat_key_other|exact Hw|exact Ht].
    - apply lacks_put_other; assumption. }
  revert Hw'. generalize (fst (put_obj target (dict_set key' v t) w)).
  change (preserves (lacks r name)
            (bind (get_obj src) (fun d' => if Nat.eqb (length d') size0
                                           then copy_fields count src target size0 keys
                                           else raise (RuntimeError "dictionary changed size during iteration")))).
  apply bind_get_obj_preserves. intros w' d' Hw' _.
  destruct (Nat.eqb (length d') size0); [apply IH; exact Hw'|exact Hw'].
Qed.

Lemma setUserArray_preserves (r : nat) (users : pyval) (target : nat) :
  preserves (lacks r name) (setUserArray users target).
Proof.
  unfold setUserArray. apply bind_preserves; [apply pure_preserves, lift_pure|].
  intros l. generalize 0. induction l as [|u l IH]; intros n; cbn [set_users].
  - apply pure_preserves, ret_pure.
  - apply bind_preserves; [destruct u; apply pure_preserves; first [apply ret_pure|apply raise_pure]|].
    intros src. apply bind_preserves; [apply pure_preserves, get_obj_pure|]. intros ud.
    apply bind_preserves; [apply copy_fields_preserves|]. intros _. apply IH.
Qed.

End Flatten.

Lemma makeRequest_heap (url meth : string) (data : option pydict) (w : world) :
  heap (fst (makeRequest transport json_loads url meth data w)) = heap w.
Proof.
  destruct (sw_client (self w)) as [cl|] eqn:E.
  - rewrite (makeRequest_logs transport json_loads url meth data w cl E). reflexivity.
  - rewrite (makeRequest_no_client transport json_loads url meth data w E). reflexivity.
Qed.

Lemma makeRequest_preserves (r : nat) (name url meth : string) (data : option pydict) :
  preserves (lacks r name) (makeRequest transport json_loads url meth data).
Proof. intros w Hw d Hd. rewrite makeRequest_heap in Hd. exact (Hw d Hd). Qed.

Lemma del_key_ensures (r : nat) (name : string) : ensures (lacks r name) (del_key r name).
Proof.
  intros w d' Hd'. unfold del_key, bind, get_obj in *.
  destruct (nth_error (heap w) r) as [d|] eqn:E; cbn in Hd'; [|congruence].
  destruct (assoc name d) as [v|] eqn:Ea; cbn in Hd'.
  - rewrite nth_error_list_set_same, E in Hd'. injection Hd' as <-. apply assoc_dict_del.
  - rewrite E in Hd'. injection Hd' as <-. exact Ea.
Qed.

(** Reading the attribute [name] of [r]: when it is missing the object
    already lacks it. *)
Lemma get_attr_eq (r : nat) (name : string) (w : world) :
  get_attr r name w
  = (w, match nth_error (heap w) r with
        | Some d => match assoc name d with
                    | Some v => Ok v | None => Exc (AttributeError name) end
        | None => Exc (AttributeError "__dict__")
        end).
Proof.
  unfold get_attr, bind, get_obj.
  destruct (nth_error (heap w) r) as [d|]; [destruct (assoc name d)|]; reflexivity.
Qed.

Lemma bind_get_attr_ensures {B} (r : nat) (name : string) (k : pyval -> M B) :
  (forall v, ensures (lacks r name) (k v)) -> ensures (lacks r name) (bind (get_attr r name) k).
Proof.
  intros Hk w. unfold bind at 1. rewrite get_attr_eq.
  destruct (nth_error (heap w) r) as [d|] eqn:E.
  - destruct (assoc name d) as [v|] eqn:Ea; [exact (Hk v w)|].
    intros d' Hd'. cbn in Hd'. rewrite E in Hd'. injection Hd' as <-. exact Ea.
  - intros d' Hd'. cbn in Hd'. congruence.
Qed.

Ltac keep_lacks :=
  repeat match goal with
  | |- preserves _ (bind _ _) => apply bind_preserves; [|intros ?]
  | |- preserves _ (setUserArray _ _) =>
      apply setUserArray_preserves; first [exact flat_key_not_users | exact flat_key_not_members]
  | |- preserves _ (makeRequest _ _ _ _ _) => apply makeRequest_preserves
  | |- preserves _ (if ?b then _ else _) => destruct b
  | |- preserves _ _ => apply pure_preserves; frame
  end.

(** C9: [createExpense] deletes [users] from the expense object it is
    given: once the call is over, raising or not, that object has no
    [users] attribute; [createGroup] likewise leaves the group object
    without [members]. *)
Theorem create_drops_nested_list (r : nat) (w : world) :
  lacks r "users" (fst (createExpense transport json_loads entity mk_entity r w))
  /\ lacks r "members" (fst (createGroup transport json_loads entity mk_entity r w)).
Proof.
  split.
  - unfold createExpense. revert w.
    apply bind_get_obj_ensures; [intros w E d Hd; congruence|]. intros w d _.
    revert w. unfold getUsers. apply bind_get_attr_ensures. intros users.
    apply bind_ensures; [apply del_key_ensures|intros _].
    keep_lacks.
  - unfold createGroup. revert w.
    apply bind_get_obj_ensures; [intros w E d Hd; congruence|]. intros w d Hd.
    destruct (assoc "members" d) as [m|] eqn:Em.
    + cut (ensures (lacks r "members")
             (bind (bind (getMembers r) (fun group_members =>
                    bind (del_key r "members") (fun _ => setUserArray group_members r)))
                   (fun _ => bind (get_obj r) (fun data =>
                      bind (makeRequest transport json_loads CREATE_GROUP_URL "POST" (Some data))
                           (fun content => optional entity mk_entity "Group" "group" content))))).
      { intros H. apply H. }
      apply bind_ensures; [|intros _; keep_lacks].
      unfold getMembers. apply bind_get_attr_ensures. intros members.
      apply bind_ensures; [apply del_key_ensures|intros _]. keep_lacks.
    + cut (preserves (lacks r "members")
             (bind (ret tt) (fun _ => bind (get_obj r) (fun data =>
                      bind (makeRequest transport json_loads CREATE_GROUP_URL "POST" (Some data))
                           (fun content => optional entity mk_entity "Group" "group" content))))).
      { intros H. apply H. intros d' Hd'. rewrite Hd in Hd'. injection Hd' as <-. exact Em. }
      keep_lacks.
Qed.

End Mutation.

(* ------------------------------------------------------------------ *)
(** ** The flattening protocol *)

Lemma assoc_of_In (k : string) (v : pyval) (u : pydict) :
  NoDup (map fst u) -> In (k, v) u -> assoc k u = Some v.
Proof.
  induction u as [|[k0 v0] u IH]; cbn; [intros _ []|].
  intros Hnd [[= -> ->]|Hin]; inversion Hnd as [|? ? Hni Hnd']; subst.
  - rewrite String.eqb_refl. reflexivity.
  - destruct (String.eqb_spec k k0) as [->|_]; [|exact (IH Hnd' Hin)].
    exfalso. apply Hni. apply (in_map fst _ _ Hin).
Qed.

Lemma copy_fields_run (count src target : nat) (u : pydict) (ps : list (string * pyval)) :
  src <> target ->
  (forall k v, In (k, v) ps -> assoc k u = Some v) ->
  forall w t,
  nth_error (heap w) src = Some u -> nth_error (heap w) target = Some t ->
  snd (copy_fields count src target (length u) (map fst ps) w) = Ok tt
  /\ self (fst (copy_fields count src target (length u) (map fst ps) w)) = self w
  /\ log (fst (copy_fields count src target (length u) (map fst ps) w)) = log w
  /\ nth_error (heap (fst (copy_fields count src target (length u) (map fst ps) w))) target
     = Some (apply_writes (map (fun '(k, v) => (flat_key count k, v)) ps) t)
  /\ (forall j, j <> target ->
      nth_error (heap (fst (copy_fields count src target (length u) (map fst ps) w))) j
      = nth_error (heap w) j).
Proof.
  intros Hne Hps. induction ps as [|[k v] ps IH]; intros w t Hs Ht.
  - cbn. rewrite Ht. repeat split; reflexivity.
  - cbn [map fst copy_fields]. unfold bind, get_obj, lift, put_obj.
    rewrite Hs, (Hps k v (or_introl eq_refl)), Ht. cbn [self heap log fst snd].
    rewrite (nth_error_list_set_other target src) by congruence. rewrite Hs, Nat.eqb_refl.
    set (t1 := dict_set ("users__" ++ str_nat count ++ "__"
                         ++ (if String.eqb k "id" then "user_id" else k)) v t).
    set (w1 := mkWorld (self w) (list_set target t1 (heap w)) (log w)).
    assert (Hs1 : nth_error (heap w1) src = Some u)
      by (cbn; rewrite nth_error_list_set_other by congruence; exact Hs).
    assert (Ht1 : nth_error (heap w1) target = Some t1)
      by (cbn; rewrite nth_error_list_set_same, Ht; reflexivity).
    destruct (IH (fun k' v' H => Hps k' v' (or_intror H)) w1 t1 Hs1 Ht1)
      as [R [S [L [T O]]]].
    fold w1. repeat split; [exact R|exact S|exact L|exact T|].
    intros j Hj. transitivity (nth_error (heap w1) j); [exact (O j Hj)|].
    cbn. apply nth_error_list_set_other. congruence.
Qed.

Lemma apply_writes_app (ws1 ws2 : list (string * pyval)) (t : pydict) :
  apply_writes (ws1 ++ ws2)%list t = apply_writes ws2 (apply_writes ws1 t).
Proof. unfold apply_writes. apply fold_left_app. Qed.

Lemma Forall2_heap_frame (w w1 : world) (refs : list nat) (users : list pydict) :
  Forall2 (fun r u => nth_error (heap w) r = Some u) refs users ->
  (forall r, In r refs -> nth_error (heap w1) r = nth_error (heap w) r) ->
  Forall2 (fun r u => nth_error (heap w1) r = Some u) refs users.
Proof.
  induction 1 as [|r u rs us Hr _ IH]; intros Hin; constructor.
  - rewrite Hin by (left; reflexivity). exact Hr.
  - apply IH. intros r' H'. apply Hin. right. exact H'.
Qed.

Lemma set_users_run (target : nat) (refs : list nat) (users : list pydict) :
  ~ In target refs -> Forall (fun u => NoDup (map fst u)) users ->
  forall count w t,
  Forall2 (fun r u => nth_error (heap w) r = Some u) refs users ->
  nth_error (heap w) target = Some t ->
  snd (set_users count target (map VRef refs) w) = Ok tt
  /\ self (fst (set_users count target (map VRef refs) w)) = self w
  /\ log (fst (set_users count target (map VRef refs) w)) = log w
  /\ nth_error (heap (fst (set_users count target (map VRef refs) w))) target
     = Some (apply_writes (flatten_spec count users) t)
  /\ (forall j, j <> target ->
      nth_error (heap (fst (set_users count target (map VRef refs) w))) j = nth_error (heap w) j).
Proof.
  revert users. induction refs as [|r rs IH]; intros users Hnin Hnd count w t H2 Ht;
    inversion H2 as [|r' u rs' us Hr H2' E1 E2]; subst.
  - cbn. rewrite Ht. repeat split; reflexivity.
  - inversion Hnd as [|? ? Hndu Hnd']; subst.
    assert (Hne : r <> target) by (intros ->; apply Hnin; left; reflexivity).
    destruct (copy_fields_run count r target u u Hne
                (fun k v H => assoc_of_In k v u Hndu H) w t Hr Ht) as [R [Sf [L [T O]]]].
    destruct (copy_fields count r target (length u) (map fst u) w) as [w1 r1] eqn:Ec;
      cbn [fst snd] in *. subst r1.
    assert (Eq : set_users count target (map VRef (r :: rs)) w
                 = set_users (S count) target (map VRef rs) w1).
    { cbn [map set_users]. unfold bind, ret, get_obj. rewrite Hr, Ec. reflexivity. }
    rewrite Eq.
    assert (H2w1 : Forall2 (fun r u => nth_error (heap w1) r = Some u) rs us).
    { apply (Forall2_heap_frame w w1 rs us H2'). intros r0 Hr0. apply O.
      intros ->. apply Hnin. right. exact Hr0. }
    destruct (IH us (fun H => Hnin (or_intror H)) Hnd' (S count) w1 _ H2w1 T)
      as [R' [S' [L' [T' O']]]].
    repeat split; [exact R'|congruence|congruence| |].
    + rewrite T'. cbn [flatten_spec]. rewrite apply_writes_app. reflexivity.
    + intros j Hj. rewrite O' by exact Hj. apply O. exact Hj.
Qed.

Lemma flatten_spec_In (n : nat) (users : list pydict) (key : string) (v : pyval) :
  In (key, v) (flatten_spec n users)
  <-> exists i u k, nth_error users i = Some u /\ In (k, v) u /\ key = flat_key (n + i) k.
Proof.
  revert n. induction users as [|u us IH]; intros n; cbn [flatten_spec].
  - split; [intros []|intros (i & u & k & H & _); destruct i; discriminate].
  - rewrite in_app_iff, IH. split.
    + intros [Hm|(i & u' & k & Hi & Hk & ->)].
      * apply in_map_iff in Hm as [[k v'] [E Hk]]. injection E as <- <-.
        exists 0, u, k. rewrite Nat.add_0_r. repeat split; assumption.
      * exists (S i), u', k. rewrite <- Nat.add_succ_comm. repeat split; assumption.
    + intros (i & u' & k & Hi & Hk & ->). destruct i as [|i]; cbn in Hi.
      * injection Hi as <-. left. apply in_map_iff. exists (k, v).
        rewrite Nat.add_0_r. split; [reflexivity|exact Hk].
      * right. exists i, u', k. rewrite Nat.add_succ_comm. repeat split; assumption.
Qed.

(** C2: [setUserArray] writes, for the entity at position [i] (counted
    from 0 in list order) and each of its fields, the key
    [users__<i>__<field>], with [id] written as [user_id] and every other
    field name kept; the target dictionary ends as these writes applied in
    order, and no other object changes.  Every written key comes from a
    field of the entity at that position, and every field is written. *)
Theorem setUserArray_flattens (w : world) (target : nat) (t : pydict)
        (refs : list nat) (users : list pydict) :
  nth_error (heap w) target = Some t ->
  ~ In target refs ->
  Forall2 (fun r u => nth_error (heap w) r = Some u) refs users ->
  Forall (fun u => NoDup (map fst u)) users ->
  snd (setUserArray (VList (map VRef refs)) target w) = Ok tt
  /\ nth_error (heap (fst (setUserArray (VList (map VRef refs)) target w))) target
     = Some (apply_writes (flatten_spec 0 users) t)
  /\ (forall j, j <> target ->
      nth_error (heap (fst (setUserArray (VList (map VRef refs)) target w))) j = nth_error (heap w) j)
  /\ (forall key v, In (key, v) (flatten_spec 0 users)
      <-> exists i u k, nth_error users i = Some u /\ In (k, v) u /\ key = flat_key i k)
  /\ (forall i k, k <> "id" -> flat_key i k = "users__" ++ str_nat i ++ "__" ++ k)
  /\ (forall i, flat_key i "id" = "users__" ++ str_nat i ++ "__user_id").
Proof.
  intros Ht Hnin H2 Hnd.
  change (setUserArray (VList (map VRef refs)) target w)
    with (set_users 0 target (map VRef refs) w).
  destruct (set_users_run target refs users Hnin Hnd 0 w t H2 Ht) as [R [_ [_ [T O]]]].
  split; [exact R|]. split; [exact T|]. split; [exact O|]. split; [|split].
  - intros key v. apply (flatten_spec_In 0).
  - intros i k Hk. unfold flat_key. destruct (String.eqb_spec k "id"); [contradiction|reflexivity].
  - intros i. reflexivity.
Qed.

(* ------------------------------------------------------------------ *)
(** ** Concrete runs *)

Lemma getExpenses_query_witness :
  sw_client (self world0) = Some client0
  /\ log (fst (getExpenses (answer "200" "OK" "{}") (parses_to (JObj [])) json entity_json
                           filters_5_10 world0))
     = (log world0 ++ [sent client0 (getExpenses_url filters_5_10) "GET" None])%list.
Proof.
  split; [reflexivity|].
  exact (proj1 (getExpenses_query (answer "200" "OK" "{}") (parses_to (JObj [])) json entity_json
                  world0 client0 eq_refl) filters_5_10).
Defined.

Lemma absent_payload_is_empty_witness :
  snd (makeRequest (answer "200" "OK" "{}") (parses_to (JObj [])) GET_FRIENDS_URL "GET" None world0)
  = Ok (JObj [])
  /\ snd (getFriends (answer "200" "OK" "{}") (parses_to (JObj [])) json entity_json world0) = Ok [].
Proof.
  split; [reflexivity|].
  exact (proj1 (proj2 (absent_payload_is_empty (answer "200" "OK" "{}") (parses_to (JObj []))
                         json entity_json world0 []))
               ltac:(reflexivity) ltac:(reflexivity)).
Defined.

Lemma getAuthorizeURL_roundtrip_witness :
  snd (getAuthorizeURL (answer "200" "OK" token_body) world_no_token)
  = Ok ("https://secure.splitwise.com/authorize?oauth_token=abc", "xyz")
  /\ snd (getAuthorizeURL (answer "403" "Forbidden" "") world_no_token)
     = Exc (SplitwiseAPIException "Invalid response 403. Please check your consumer key and secret.").
Proof.
  split.
  - exact (proj1 (getAuthorizeURL_roundtrip (answer "200" "OK" token_body) world_no_token)
                 "OK" ltac:(reflexivity)).
  - exact (proj2 (getAuthorizeURL_roundtrip (answer "403" "Forbidden" "") world_no_token)
                 ltac:(vm_compute; discriminate)).
Defined.

Lemma access_token_invariant_witness :
  Splitwise_new (VStr "ck") (VStr "cs") None [] [] = Ok world_no_token
  /\ sw_token (self (run_calls (answer "200" "OK" "{}") (parses_to (JObj [])) json entity_json
                       [CGetFriends]
                       (fst (setAccessToken access_token0
                               (run_calls (answer "200" "OK" "{}") (parses_to (JObj [])) json
                                          entity_json [CGetGroups] world_no_token)))))
     = Some (mkToken (VStr "tok") (VStr "tok_secret") None).
Proof.
  split; [reflexivity|].
  exact (proj1 (proj2 (access_token_invariant (answer "200" "OK" "{}") (parses_to (JObj []))
                         json entity_json (VStr "ck") (VStr "cs") [] [] world_no_token eq_refl)
                  [CGetGroups] access_token0 (VStr "tok") (VStr "tok_secret") [CGetFriends]
                  ltac:(repeat constructor) ltac:(repeat constructor)
                  eq_refl eq_refl ltac:(discriminate) ltac:(discriminate))).
Defined.

Lemma setUserArray_flattens_witness :
  nth_error (heap (fst (setUserArray (VList [VRef 1; VRef 2]) 0 (mkWorld (self world0) heap_a []))))
            0
  = Some (apply_writes (flatten_spec 0 [user_a; user_b]) expense_a)
  /\ apply_writes (flatten_spec 0 [user_a; user_b]) expense_a
     = [("cost", VStr "10.00"); ("users__0__user_id", VInt 7); ("users__0__paid_share", VStr "10.00");
        ("users__1__user_id", VInt 9); ("users__1__owed_share", VStr "10.00")].
Proof.
  split.
  - exact (proj1 (proj2 (setUserArray_flattens (mkWorld (self world0) heap_a []) 0 expense_a
                           [1; 2] [user_a; user_b] eq_refl ltac:(simpl; lia)
                           ltac:(repeat constructor) ltac:(repeat constructor; simpl; intuition discriminate)))).
  - vm_compute. reflexivity.
Defined.

(* ------------------------------------------------------------------ *)
(** ** Further properties of the client *)

Lemma quote_plus_char_unquote (c : ascii) (rest : string) :
  unquote_plus (quote_plus_char c ++ rest) = String c (unquote_plus rest).
Proof.
  destruct c as [[] [] [] [] [] [] [] []]; reflexivity.
Qed.

Lemma str_app_assoc (a b c : string) : (a ++ b) ++ c = a ++ b ++ c.
Proof. induction a as [|x a IH]; cbn; [reflexivity|]. rewrite IH; reflexivity. Qed.

Lemma str_app_nil_r (a : string) : a ++ "" = a.
Proof. induction a as [|x a IH]; cbn; [reflexivity|]. rewrite IH; reflexivity. Qed.

Lemma unquote_quote_app (s rest : string) :
  unquote_plus (quote_plus s ++ rest) = s ++ unquote_plus rest.
Proof.
  induction s as [|c s IH]; [reflexivity|].
  cbn [quote_plus]. rewrite str_app_assoc, quote_plus_char_unquote, IH. reflexivity.
Qed.

Lemma unquote_quote (s : string) : unquote_plus (quote_plus s) = s.
Proof. rewrite <- (str_app_nil_r (quote_plus s)), unquote_quote_app. apply str_app_nil_r. Qed.

(** Characters [quote_plus] can produce: ASCII, neither [&] nor [=]. *)
Lemma qs_safe_app (a b : string) : qs_safe (a ++ b) = qs_safe a && qs_safe b.
Proof. induction a as [|c a IH]; cbn; [reflexivity|]. rewrite IH. now rewrite !andb_assoc. Qed.

Lemma quote_plus_char_safe (c : ascii) : qs_safe (quote_plus_char c) = true.
Proof. destruct c as [[] [] [] [] [] [] [] []]; reflexivity. Qed.

Lemma quote_plus_safe (s : string) : qs_safe (quote_plus s) = true.
Proof.
  induction s as [|c s IH]; [reflexivity|]. cbn [quote_plus].
  rewrite qs_safe_app, quote_plus_char_safe, IH. reflexivity.
Qed.

Lemma quote_plus_empty (s : string) : quote_plus s = "" -> s = "".
Proof.
  destruct s as [|c s]; [reflexivity|]. cbn [quote_plus].
  destruct c as [[] [] [] [] [] [] [] []]; discriminate.
Qed.

Lemma amp_free_app (a b : string) : amp_free (a ++ b) = amp_free a && amp_free b.
Proof. induction a as [|c a IH]; cbn; [reflexivity|]. rewrite IH. now rewrite !andb_assoc. Qed.

Lemma qs_safe_amp_free (a : string) : qs_safe a = true -> amp_free a = true.
Proof.
  induction a as [|c a IH]; cbn; [reflexivity|].
  intros H. apply andb_prop in H as [H Ha]. apply andb_prop in H as [H _].
  apply andb_prop in H as [Hamp _]. rewrite Hamp, IH by exact Ha. reflexivity.
Qed.

Lemma quote_pair_amp_free (k v : string) : amp_free (quote_plus k ++ "=" ++ quote_plus v) = true.
Proof.
  rewrite !amp_free_app, (qs_safe_amp_free (quote_plus k)), (qs_safe_amp_free (quote_plus v))
    by apply quote_plus_safe. reflexivity.
Qed.

Lemma split_on_safe (a : string) : amp_free a = true -> split_on "&" a = [a].
Proof.
  induction a as [|c a IH]; cbn; [reflexivity|].
  intros H. apply andb_prop in H as [Hamp Ha]. apply negb_true_iff in Hamp. rewrite Hamp, IH by exact Ha.
  reflexivity.
Qed.

Lemma split_on_app (a b : string) :
  amp_free a = true -> split_on "&" (a ++ String "&" b) = a :: split_on "&" b.
Proof.
  induction a as [|c a IH]; cbn; [reflexivity|].
  intros H. apply andb_prop in H as [Hamp Ha]. apply negb_true_iff in Hamp. rewrite Hamp, IH by exact Ha.
  reflexivity.
Qed.

Lemma split_once_app (a b : string) :
  qs_safe a = true -> split_once "=" (a ++ String "=" b) = Some (a, b).
Proof.
  induction a as [|c a IH]; cbn; [reflexivity|].
  intros H. apply andb_prop in H as [H Ha]. apply andb_prop in H as [H _].
  apply andb_prop in H as [_ Heq]. apply negb_true_iff in Heq. rewrite Heq, IH by exact Ha.
  reflexivity.
Qed.

Lemma parse_qsl_urlencode_any (d : pydict) :
  parse_qsl (urlencode d) = nonblank (map (fun '(k, v) => (k, py_str v)) d).
Proof.
  assert (Hf : forall k v, flat_map (fun nv => match split_once "=" nv with
              | Some (n, v) => if String.eqb v "" then [] else [(unquote_plus n, unquote_plus v)]
              | None => [] end) [quote_plus k ++ "=" ++ quote_plus (py_str v)]
            = nonblank [(k, py_str v)]).
  { intros k v. cbn [flat_map]. change ("=" ++ quote_plus (py_str v)) with (String "=" (quote_plus (py_str v))).
    rewrite split_once_app by apply quote_plus_safe. rewrite !unquote_quote.
    unfold nonblank; cbn [filter].
    destruct (String.eqb_spec (quote_plus (py_str v)) "") as [E|E].
    - apply quote_plus_empty in E. rewrite E. reflexivity.
    - destruct (String.eqb_spec (py_str v) "") as [E'|_]; [rewrite E' in E; contradiction|reflexivity]. }
  unfold parse_qsl, urlencode, py_join.
  induction d as [|[k v] d IH]; [reflexivity|].
  destruct d as [|[k' v'] d].
  - cbn [map String.concat]. rewrite split_on_safe.
    + rewrite (Hf k v). reflexivity.
    + apply quote_pair_amp_free.
  - change (String.concat "&" (map (fun '(k0, v0) => quote_plus k0 ++ "=" ++ quote_plus (py_str v0))
             ((k, v) :: (k', v') :: d)))
      with ((quote_plus k ++ "=" ++ quote_plus (py_str v)) ++ String "&"
              (String.concat "&" (map (fun '(k0, v0) => quote_plus k0 ++ "=" ++ quote_plus (py_str v0))
                 ((k', v') :: d)))).
    rewrite split_on_app by apply quote_pair_amp_free.
    set (r := split_on "&" _). change (?x :: r) with ([x] ++ r)%list.
    rewrite flat_map_app, Hf. subst r. rewrite IH. unfold nonblank. rewrite <- filter_app. reflexivity.
Qed.

Lemma parse_qsl_urlencode (l : list (string * string)) :
  parse_qsl (urlencode (str_pairs l)) = nonblank l.
Proof.
  rewrite parse_qsl_urlencode_any. f_equal. unfold str_pairs.
  induction l as [|[k v] l IH]; [reflexivity|]. cbn. now rewrite IH.
Qed.

Lemma is_ascii_app (a b : string) : is_ascii (a ++ b) = is_ascii a && is_ascii b.
Proof. induction a as [|c a IH]; cbn; [reflexivity|]. rewrite IH. now rewrite !andb_assoc. Qed.

Lemma is_ascii_utf8 (s : string) : is_ascii s = true -> utf8_valid s = true.
Proof.
  induction s as [|c s IH]; cbn; [reflexivity|].
  intros H. apply andb_prop in H as [Hc Hs]. rewrite Hc. exact (IH Hs).
Qed.

Lemma quote_plus_ascii (s : string) : is_ascii (quote_plus s) = true.
Proof.
  induction s as [|c s IH]; [reflexivity|]. cbn [quote_plus].
  rewrite is_ascii_app, IH, andb_true_r.
  destruct c as [[] [] [] [] [] [] [] []]; reflexivity.
Qed.

Lemma urlencode_ascii (d : pydict) : is_ascii (urlencode d) = true.
Proof.
  unfold urlencode, py_join.
  induction d as [|[k v] d IH]; [reflexivity|].
  destruct d as [|p d].
  - cbn [map String.concat]. rewrite !is_ascii_app, !quote_plus_ascii. reflexivity.
  - change (String.concat "&" (map (fun '(k0, v0) => quote_plus k0 ++ "=" ++ quote_plus (py_str v0))
             ((k, v) :: p :: d)))
      with ((quote_plus k ++ "=" ++ quote_plus (py_str v)) ++ "&"
              ++ String.concat "&" (map (fun '(k0, v0) => quote_plus k0 ++ "=" ++ quote_plus (py_str v0))
                 (p :: d))).
    rewrite !is_ascii_app, !quote_plus_ascii, IH. reflexivity.
Qed.

Lemma urlencode_utf8 (d : pydict) : utf8_valid (urlencode d) = true.
Proof. apply is_ascii_utf8, urlencode_ascii. Qed.

Lemma getAccessToken_run (transport : list request -> request -> response) (gv : pyval)
      (key secret verifier : pyval) (w : world) :
  key <> VNone -> secret <> VNone ->
  let rq := sent (mkClient (sw_consumer (self w)) (Some (set_verifier gv (mkToken key secret None) verifier)))
                 ACCESS_TOKEN_URL "POST" None in
  getAccessToken transport gv key secret verifier w
  = (after_send w rq,
     if negb (String.eqb (status (transport (log w) rq)) "200") then
       Exc (SplitwiseAPIException ("Invalid response " ++ status (transport (log w) rq)
                                   ++ ". Please check your consumer key and secret."))
     else match decode_utf8 (body (transport (log w) rq)) with
          | Ok content => Ok (dict_of_pairs (parse_qsl content))
          | Exc e => Exc e
          end).
Proof.
  intros Hk Hs rq. unfold getAccessToken, bind, lift, get_self, client_request.
  assert (Ht : oauth_Token key secret = Ok (mkToken key secret None)).
  { unfold oauth_Token. destruct key; try contradiction; destruct secret; try contradiction; reflexivity. }
  rewrite Ht. cbn [fst snd].
  destruct (negb _); [reflexivity|].
  destruct (decode_utf8 _); reflexivity.
Qed.

Lemma getAccessToken_body (transport : list request -> request -> response) (gv : pyval)
        (key secret verifier : pyval) (w : world) (rsn : string) (l : list (string * string)) :
  key <> VNone -> secret <> VNone ->
  let rq := sent (mkClient (sw_consumer (self w)) (Some (set_verifier gv (mkToken key secret None) verifier)))
                 ACCESS_TOKEN_URL "POST" None in
  transport (log w) rq = mkResponse "200" rsn (urlencode (str_pairs l)) ->
  getAccessToken transport gv key secret verifier w
  = (after_send w rq, Ok (dict_of_pairs (nonblank l))).
Proof.
  intros Hk Hs rq Hr. rewrite (getAccessToken_run transport gv key secret verifier w Hk Hs).
  fold rq. rewrite Hr. cbn [status body String.eqb Ascii.eqb Bool.eqb negb].
  unfold decode_utf8. rewrite urlencode_utf8, parse_qsl_urlencode. reflexivity.
Qed.

(** getAccessToken, round trip: when the access-token endpoint answers 200 with
    the URL encoding of a list of UTF-8 [str] pairs, the call sends exactly one
    request and returns the dictionary of those pairs, pairs with a blank
    value dropped. *)
Theorem getAccessToken_roundtrip (transport : list request -> request -> response) (gv : pyval)
        (key secret verifier : pyval) (w : world) (rsn : string) (l : list (string * string)) :
  key <> VNone -> secret <> VNone ->
  Forall (fun '(k, v) => utf8_valid k = true /\ utf8_valid v = true) l ->
  let rq := sent (mkClient (sw_consumer (self w)) (Some (set_verifier gv (mkToken key secret None) verifier)))
                 ACCESS_TOKEN_URL "POST" None in
  transport (log w) rq = mkResponse "200" rsn (urlencode (str_pairs l)) ->
  getAccessToken transport gv key secret verifier w
  = (after_send w rq, Ok (dict_of_pairs (nonblank l))).
Proof. intros Hk Hs _. apply getAccessToken_body; assumption. Qed.

(** getAccessToken fails without sending anything when the token key or secret
    is [None] (ValueError), and with SplitwiseAPIException naming the status
    after one request when the endpoint answers anything but 200. *)
Theorem getAccessToken_errors (transport : list request -> request -> response) (gv : pyval)
        (key secret verifier : pyval) (w : world) :
  ((key = VNone \/ secret = VNone) ->
   getAccessToken transport gv key secret verifier w
   = (w, Exc (ValueError "Key and secret must be set.")))
  /\ (key <> VNone -> secret <> VNone ->
      let rq := sent (mkClient (sw_consumer (self w))
                               (Some (set_verifier gv (mkToken key secret None) verifier)))
                     ACCESS_TOKEN_URL "POST" None in
      status (transport (log w) rq) <> "200" ->
      getAccessToken transport gv key secret verifier w
      = (after_send w rq,
         Exc (SplitwiseAPIException ("Invalid response " ++ status (transport (log w) rq)
                                     ++ ". Please check your consumer key and secret.")))).
Proof.
  split.
  - intros H. unfold getAccessToken, bind, lift, oauth_Token.
    destruct H as [->| ->]; [reflexivity|]. destruct key; reflexivity.
  - intros Hk Hs rq Hst. rewrite (getAccessToken_run transport gv key secret verifier w Hk Hs).
    fold rq. destruct (String.eqb_spec (status (transport (log w) rq)) "200"); [contradiction|].
    reflexivity.
Qed.

(** The access-token handshake composes: the dictionary getAccessToken returns
    for a 200 answer carrying a token and a secret, passed to setAccessToken,
    installs that token and a client built with it; the world keeps its heap
    and holds the one access-token request in its log. *)
Theorem access_token_handshake (transport : list request -> request -> response) (gv : pyval)
        (key secret verifier : pyval) (w : world) (rsn k s : string) :
  key <> VNone -> secret <> VNone -> k <> "" -> s <> "" ->
  utf8_valid k = true -> utf8_valid s = true ->
  transport (log w) (sent (mkClient (sw_consumer (self w))
                                    (Some (set_verifier gv (mkToken key secret None) verifier)))
                          ACCESS_TOKEN_URL "POST" None)
  = mkResponse "200" rsn (urlencode (str_pairs [("oauth_token", k); ("oauth_token_secret", s)])) ->
  snd (getAccessToken transport gv key secret verifier w)
  = Ok [("oauth_token", k); ("oauth_token_secret", s)]
  /\ setAccessToken (str_pairs [("oauth_token", k); ("oauth_token_secret", s)])
                    (fst (getAccessToken transport gv key secret verifier w))
     = (mkWorld (mkSplitwise (sw_consumer (self w)) (Some (mkToken (VStr k) (VStr s) None))
                             (Some (mkClient (sw_consumer (self w)) (Some (mkToken (VStr k) (VStr s) None)))))
                (heap w)
                (log w ++ [sent (mkClient (sw_consumer (self w))
                                          (Some (set_verifier gv (mkToken key secret None) verifier)))
                                ACCESS_TOKEN_URL "POST" None])%list,
        Ok tt).
Proof.
  intros Hk Hs Hk' Hs' Uk Us Hr.
  rewrite (getAccessToken_body transport gv key secret verifier w rsn
             [("oauth_token", k); ("oauth_token_secret", s)] Hk Hs Hr).
  unfold nonblank; cbn [filter].
  destruct (String.eqb_spec k "") as [|_]; [contradiction|].
  destruct (String.eqb_spec s "") as [|_]; [contradiction|].
  split; [reflexivity|]. reflexivity.
Qed.


(** setAccessToken reads [oauth_token] then [oauth_token_secret]: a missing key
    raises KeyError for it and a [None] value raises ValueError, both with the
    world unchanged; otherwise the token and a client signed with it replace
    the old ones and nothing else changes. *)
Theorem setAccessToken_outcome (d : pydict) (w : world) :
  (assoc "oauth_token" d = None -> setAccessToken d w = (w, Exc (KeyError "oauth_token")))
  /\ (forall key, assoc "oauth_token" d = Some key -> assoc "oauth_token_secret" d = None ->
      setAccessToken d w = (w, Exc (KeyError "oauth_token_secret")))
  /\ (forall key secret, assoc "oauth_token" d = Some key -> assoc "oauth_token_secret" d = Some secret ->
      key = VNone \/ secret = VNone ->
      setAccessToken d w = (w, Exc (ValueError "Key and secret must be set.")))
  /\ (forall key secret, assoc "oauth_token" d = Some key -> assoc "oauth_token_secret" d = Some secret ->
      key <> VNone -> secret <> VNone ->
      setAccessToken d w
      = (mkWorld (mkSplitwise (sw_consumer (self w)) (Some (mkToken key secret None))
                              (Some (mkClient (sw_consumer (self w)) (Some (mkToken key secret None)))))
                 (heap w) (log w), Ok tt)).
Proof.
  split; [|split; [|split]]; [unfold setAccessToken, bind, lift ..|].
  - intros H. rewrite H. reflexivity.
  - intros key Hk Hs. rewrite Hk, Hs. reflexivity.
  - intros key secret Hk Hs Hn. rewrite Hk, Hs. unfold oauth_Token.
    destruct Hn as [->| ->]; [reflexivity|]. destruct key; reflexivity.
  - intros key secret Hk Hs Nk Ns. apply setAccessToken_sets; assumption.
Qed.

(** The constructor rejects a [None] consumer key or secret whatever the access
    token; given no access token or an empty dictionary it builds an instance
    without token or client; a non-empty dictionary without [oauth_token]
    raises KeyError; one with both values set installs the token and a client. *)
Theorem Splitwise_new_outcome (ck cs : pyval) (h : list pydict) (lg : list request) :
  ((ck = VNone \/ cs = VNone) ->
   forall access_token, Splitwise_new ck cs access_token h lg = Exc (ValueError "Key and secret must be set."))
  /\ (ck <> VNone -> cs <> VNone ->
      Splitwise_new ck cs None h lg = Ok (mkWorld (mkSplitwise (mkConsumer ck cs) None None) h lg)
      /\ Splitwise_new ck cs (Some []) h lg = Ok (mkWorld (mkSplitwise (mkConsumer ck cs) None None) h lg)
      /\ (forall d, d <> [] -> assoc "oauth_token" d = None ->
          Splitwise_new ck cs (Some d) h lg = Exc (KeyError "oauth_token"))
      /\ (forall d key secret, assoc "oauth_token" d = Some key -> assoc "oauth_token_secret" d = Some secret ->
          key <> VNone -> secret <> VNone ->
          Splitwise_new ck cs (Some d) h lg
          = Ok (mkWorld (mkSplitwise (mkConsumer ck cs) (Some (mkToken key secret None))
                                     (Some (mkClient (mkConsumer ck cs) (Some (mkToken key secret None)))))
                        h lg))).
Proof.
  split.
  - intros Hn at_. unfold Splitwise_new, oauth_Consumer.
    destruct Hn as [->| ->]; [reflexivity|]. destruct ck; reflexivity.
  - intros Nk Ns.
    assert (Hc : oauth_Consumer ck cs = Ok (mkConsumer ck cs)).
    { unfold oauth_Consumer. destruct ck; try contradiction; destruct cs; try contradiction; reflexivity. }
    unfold Splitwise_new. rewrite Hc. split; [reflexivity|]. split; [reflexivity|]. split.
    + intros [|p d] Hne Hk; [contradiction|].
      unfold setAccessToken, bind, lift. rewrite Hk. reflexivity.
    + intros [|p d] key secret Hk Hs Nk' Ns'; [discriminate|].
      rewrite (setAccessToken_sets (p :: d) key secret _ Hk Hs Nk' Ns'). reflexivity.
Qed.

Section GatewayEdges.

Variable transport : list request -> request -> response.
Variable json_loads : string -> option json.

Lemma makeRequest_200 (w : world) (cl : oclient) (url meth : string) (data : option pydict) :
  sw_client (self w) = Some cl ->
  status (transport (log w) (sent cl url meth data)) = "200" ->
  makeRequest transport json_loads url meth data w
  = check_response json_loads url (mkResponse "200" "" (body (transport (log w) (sent cl url meth data))))
                   (after_send w (sent cl url meth data)).
Proof.
  intros Hcl Hst. rewrite (makeRequest_send transport json_loads w cl url meth data Hcl).
  unfold check_response. rewrite Hst. reflexivity.
Qed.

(** A 200 answer whose body is not UTF-8 fails with UnicodeDecodeError, and one
    whose body is not JSON fails with JSONDecodeError; the request was sent
    in both cases. *)
Theorem makeRequest_bad_body (w : world) (cl : oclient) (url meth : string) (data : option pydict) :
  sw_client (self w) = Some cl ->
  status (transport (log w) (sent cl url meth data)) = "200" ->
  (utf8_valid (body (transport (log w) (sent cl url meth data))) = false ->
   makeRequest transport json_loads url meth data w
   = (after_send w (sent cl url meth data), Exc UnicodeDecodeError))
  /\ (utf8_valid (body (transport (log w) (sent cl url meth data))) = true ->
      json_loads (body (transport (log w) (sent cl url meth data))) = None ->
      makeRequest transport json_loads url meth data w
      = (after_send w (sent cl url meth data), Exc JSONDecodeError)).
Proof.
  intros Hcl Hst. rewrite (makeRequest_200 w cl url meth data Hcl Hst).
  unfold check_response, bind, lift, decode_utf8; cbn [status body String.eqb Ascii.eqb Bool.eqb negb].
  split; intros Hu; rewrite Hu; [reflexivity|].
  intros Hj. unfold json_loads_res. rewrite Hj. reflexivity.
Qed.

(** A 200 JSON object whose [errors] entry is absent or an empty object, list
    or string is returned as it is. *)
Theorem makeRequest_no_errors (w : world) (cl : oclient) (url meth : string) (data : option pydict)
        (m : list (string * json)) :
  sw_client (self w) = Some cl ->
  status (transport (log w) (sent cl url meth data)) = "200" ->
  utf8_valid (body (transport (log w) (sent cl url meth data))) = true ->
  json_loads (body (transport (log w) (sent cl url meth data))) = Some (JObj m) ->
  (assoc "errors" m = None \/ assoc "errors" m = Some (JObj [])
   \/ assoc "errors" m = Some (JArr []) \/ assoc "errors" m = Some (JStr "")) ->
  makeRequest transport json_loads url meth data w
  = (after_send w (sent cl url meth data), Ok (JObj m)).
Proof.
  intros Hcl Hst Hu Hj He. rewrite (makeRequest_200 w cl url meth data Hcl Hst).
  unfold check_response, bind, lift, decode_utf8, json_loads_res, ret;
    cbn [status body String.eqb Ascii.eqb Bool.eqb negb].
  rewrite Hu, Hj. cbn [json_contains json_getitem].
  destruct He as [E|[E|[E|E]]]; rewrite E; reflexivity.
Qed.

(** A 200 JSON object whose [errors] entry is a non-empty list or string fails
    with AttributeError (no [.get]); one that is null, a boolean or a number
    fails with TypeError (no [len]). *)
Theorem makeRequest_malformed_errors (w : world) (cl : oclient) (url meth : string)
        (data : option pydict) (m : list (string * json)) (e : json) :
  sw_client (self w) = Some cl ->
  status (transport (log w) (sent cl url meth data)) = "200" ->
  utf8_valid (body (transport (log w) (sent cl url meth data))) = true ->
  json_loads (body (transport (log w) (sent cl url meth data))) = Some (JObj m) ->
  assoc "errors" m = Some e ->
  ((match e with JArr (_ :: _) | JStr (String _ _) => True | _ => False end) ->
   makeRequest transport json_loads url meth data w
   = (after_send w (sent cl url meth data), Exc (AttributeError "get")))
  /\ ((match e with JNull | JBool _ | JNum _ => True | _ => False end) ->
      makeRequest transport json_loads url meth data w
      = (after_send w (sent cl url meth data), Exc (TypeError "object has no len()"))).
Proof.
  intros Hcl Hst Hu Hj He. rewrite (makeRequest_200 w cl url meth data Hcl Hst).
  unfold check_response, bind, lift, decode_utf8, json_loads_res, ret, raise;
    cbn [status body String.eqb Ascii.eqb Bool.eqb negb].
  rewrite Hu, Hj. cbn [json_contains json_getitem]. rewrite He.
  split; intros H; destruct e as [| | |s|[|x l]|]; try contradiction; try reflexivity.
  destruct s; [contradiction|reflexivity].
Qed.

End GatewayEdges.

Section Calls.

Variable transport : list request -> request -> response.
Variable json_loads : string -> option json.
Variable entity : Type.
Variable mk_entity : string -> json -> res entity.

Lemma bind_ok' {A B} (c : M A) (k : A -> M B) (w : world) (a : A) :
  snd (c w) = Ok a -> snd (bind c k w) = snd (k a (fst (c w))).
Proof. unfold bind. destruct (c w) as [w' [a'|e]]; cbn; intros H; [now inversion H|discriminate]. Qed.

(** getCurrentUser and getUser build their entity from the [user] entry of a
    successful answer and raise KeyError when it is missing. *)
Theorem user_calls_need_user (w : world) (m : list (string * json)) :
  (snd (makeRequest transport json_loads GET_CURRENT_USER_URL "GET" None w) = Ok (JObj m) ->
   snd (getCurrentUser transport json_loads entity mk_entity w)
   = match assoc "user" m with Some u => mk_entity "CurrentUser" u | None => Exc (KeyError "user") end)
  /\ (forall id, snd (makeRequest transport json_loads (GET_USER_URL ++ "/" ++ py_str id) "GET" None w)
                 = Ok (JObj m) ->
      snd (getUser transport json_loads entity mk_entity id w)
      = match assoc "user" m with Some u => mk_entity "User" u | None => Exc (KeyError "user") end).
Proof.
  split; [|intros id]; intros H; unfold getCurrentUser, getUser; rewrite (bind_ok' _ _ _ _ H);
    unfold bind, lift; cbn [json_getitem]; destruct (assoc "user" m); reflexivity.
Qed.

Lemma mapM_lift_ok {A B} (f : A -> res B) (xs : list A) (ys : list B) (w : world) :
  Forall2 (fun x y => f x = Ok y) xs ys -> mapM (fun x => lift (f x)) xs w = (w, Ok ys).
Proof.
  intros H. induction H as [|x y xs ys Hxy _ IH]; [reflexivity|].
  cbn [mapM]. unfold bind, lift at 1. rewrite Hxy. rewrite IH. reflexivity.
Qed.

Lemma bind_lift_ok {A B} (a : A) (k : A -> M B) (w : world) : bind (lift (Ok a)) k w = k a w.
Proof. reflexivity. Qed.

Lemma collect_items (cls key : string) (m : list (string * json)) (w : world) :
  (forall items es, assoc key m = Some (JArr items) ->
   Forall2 (fun x e => mk_entity cls x = Ok e) items es ->
   snd (collect entity mk_entity cls key (JObj m) w) = Ok es)
  /\ (assoc key m = Some JNull ->
      snd (collect entity mk_entity cls key (JObj m) w) = Exc (TypeError "object is not iterable")).
Proof.
  unfold collect. split.
  - intros items es Hk H2. cbn [json_contains]. rewrite Hk, !bind_lift_ok.
    cbn [json_getitem]. rewrite Hk, !bind_lift_ok. cbn [json_iter]. rewrite bind_lift_ok.
    rewrite (mapM_lift_ok _ _ _ w H2). reflexivity.
  - intros Hk. cbn [json_contains]. rewrite Hk, !bind_lift_ok.
    cbn [json_getitem]. rewrite Hk, !bind_lift_ok. reflexivity.
Qed.

(** The collection calls turn a payload list into entities one to one and in
    order, and fail with TypeError when the payload is [null]. *)
Theorem collections_in_order (w : world) (m : list (string * json)) :
  (snd (makeRequest transport json_loads GET_FRIENDS_URL "GET" None w) = Ok (JObj m) ->
   (forall items es, assoc "friends" m = Some (JArr items) ->
    Forall2 (fun x e => mk_entity "Friend" x = Ok e) items es ->
    snd (getFriends transport json_loads entity mk_entity w) = Ok es)
   /\ (assoc "friends" m = Some JNull ->
       snd (getFriends transport json_loads entity mk_entity w) = Exc (TypeError "object is not iterable")))
  /\ (snd (makeRequest transport json_loads GET_GROUPS_URL "GET" None w) = Ok (JObj m) ->
   (forall items es, assoc "groups" m = Some (JArr items) ->
    Forall2 (fun x e => mk_entity "Group" x = Ok e) items es ->
    snd (getGroups transport json_loads entity mk_entity w) = Ok es)
   /\ (assoc "groups" m = Some JNull ->
       snd (getGroups transport json_loads entity mk_entity w) = Exc (TypeError "object is not iterable")))
  /\ (snd (makeRequest transport json_loads GET_CURRENCY_URL "GET" None w) = Ok (JObj m) ->
   (forall items es, assoc "currencies" m = Some (JArr items) ->
    Forall2 (fun x e => mk_entity "Currency" x = Ok e) items es ->
    snd (getCurrencies transport json_loads entity mk_entity w) = Ok es)
   /\ (assoc "currencies" m = Some JNull ->
       snd (getCurrencies transport json_loads entity mk_entity w) = Exc (TypeError "object is not iterable")))
  /\ (snd (makeRequest transport json_loads GET_CATEGORY_URL "GET" None w) = Ok (JObj m) ->
   (forall items es, assoc "categories" m = Some (JArr items) ->
    Forall2 (fun x e => mk_entity "Category" x = Ok e) items es ->
    snd (getCategories transport json_loads entity mk_entity w) = Ok es)
   /\ (assoc "categories" m = Some JNull ->
       snd (getCategories transport json_loads entity mk_entity w) = Exc (TypeError "object is not iterable")))
  /\ (forall f, snd (makeRequest transport json_loads (getExpenses_url f) "GET" None w) = Ok (JObj m) ->
   (forall items es, assoc "expenses" m = Some (JArr items) ->
    Forall2 (fun x e => mk_entity "Expense" x = Ok e) items es ->
    snd (getExpenses transport json_loads entity mk_entity f w) = Ok es)
   /\ (assoc "expenses" m = Some JNull ->
       snd (getExpenses transport json_loads entity mk_entity f w) = Exc (TypeError "object is not iterable"))).
Proof.
  repeat split; intros;
    unfold getFriends, getGroups, getCurrencies, getCategories, getExpenses;
    (erewrite bind_ok'; [|eassumption]);
    first [eapply collect_items; eassumption | apply collect_items; assumption].
Qed.

(** getGroup and getExpense wrap the entity built from a present payload in
    [Some], or raise what building it raises. *)
Theorem single_entity_present (w : world) (m : list (string * json)) :
  (forall id g, snd (makeRequest transport json_loads (GET_GROUP_URL ++ "/" ++ py_str id) "GET" None w)
                = Ok (JObj m) -> assoc "group" m = Some g ->
   snd (getGroup transport json_loads entity mk_entity id w)
   = match mk_entity "Group" g with Ok e => Ok (Some e) | Exc x => Exc x end)
  /\ (forall id x, snd (makeRequest transport json_loads (GET_EXPENSE_URL ++ "/" ++ py_str id) "GET" None w)
                   = Ok (JObj m) -> assoc "expense" m = Some x ->
      snd (getExpense transport json_loads entity mk_entity id w)
      = match mk_entity "Expense" x with Ok e => Ok (Some e) | Exc x => Exc x end).
Proof.
  split; intros id g H Hg; unfold getGroup, getExpense; rewrite (bind_ok' _ _ _ _ H);
    unfold optional, bind, lift, ret; cbn [json_contains json_getitem]; rewrite Hg;
    destruct (mk_entity _ g); reflexivity.
Qed.

(** With a client set, each read call and deleteGroup sends exactly one GET
    request, to its own endpoint (with the id appended where it takes one),
    without a body, and changes nothing else in the world. *)
Theorem read_calls_endpoints (w : world) (cl : oclient) :
  sw_client (self w) = Some cl ->
  fst (getCurrentUser transport json_loads entity mk_entity w)
    = after_send w (sent cl GET_CURRENT_USER_URL "GET" None)
  /\ (forall id, fst (getUser transport json_loads entity mk_entity id w)
                 = after_send w (sent cl (GET_USER_URL ++ "/" ++ py_str id) "GET" None))
  /\ fst (getFriends transport json_loads entity mk_entity w)
     = after_send w (sent cl GET_FRIENDS_URL "GET" None)
  /\ fst (getGroups transport json_loads entity mk_entity w)
     = after_send w (sent cl GET_GROUPS_URL "GET" None)
  /\ fst (getCurrencies transport json_loads entity mk_entity w)
     = after_send w (sent cl GET_CURRENCY_URL "GET" None)
  /\ fst (getCategories transport json_loads entity mk_entity w)
     = after_send w (sent cl GET_CATEGORY_URL "GET" None)
  /\ (forall id, fst (getGroup transport json_loads entity mk_entity id w)
                 = after_send w (sent cl (GET_GROUP_URL ++ "/" ++ py_str id) "GET" None))
  /\ (forall id, fst (getExpense transport json_loads entity mk_entity id w)
                 = after_send w (sent cl (GET_EXPENSE_URL ++ "/" ++ py_str id) "GET" None))
  /\ (forall id, fst (deleteGroup transport json_loads id w)
                 = after_send w (sent cl (DELETE_GROUP_URL ++ "/" ++ py_str id) "GET" None)).
Proof.
  intros Hcl.
  repeat split; intros;
    unfold getCurrentUser, getUser, getFriends, getGroups, getCurrencies, getCategories,
      getGroup, getExpense, deleteGroup;
    rewrite bind_world_pure_tail by (intros; first [apply collect_pure | apply optional_pure | frame]);
    apply makeRequest_logs; exact Hcl.
Qed.

End Calls.

Lemma bind_step {A B} (c : M A) (k : A -> M B) (w w' : world) (a : A) :
  c w = (w', Ok a) -> bind c k w = k a w'.
Proof. intros H. unfold bind. rewrite H. reflexivity. Qed.

Lemma del_then_flatten (name : string) (r : nat) (e : pydict) (x : pyval)
      (refs : list nat) (users : list pydict) (w : world) :
  nth_error (heap w) r = Some e -> assoc name e = Some x -> ~ In r refs ->
  Forall2 (fun q u => nth_error (heap w) q = Some u) refs users ->
  Forall (fun u => NoDup (map fst u)) users ->
  exists w2, bind (del_key r name) (fun _ => setUserArray (VList (map VRef refs)) r) w = (w2, Ok tt)
    /\ self w2 = self w /\ log w2 = log w
    /\ nth_error (heap w2) r = Some (apply_writes (flatten_spec 0 users) (dict_del name e))
    /\ (forall j, j <> r -> nth_error (heap w2) j = nth_error (heap w) j).
Proof.
  intros He Hx Hnin H2 Hnd.
  set (w1 := mkWorld (self w) (list_set r (dict_del name e) (heap w)) (log w)).
  assert (Hdel : del_key r name w = (w1, Ok tt)).
  { unfold del_key, bind, get_obj. rewrite He, Hx. reflexivity. }
  rewrite (bind_step _ _ w w1 tt Hdel).
  assert (Ht : nth_error (heap w1) r = Some (dict_del name e)).
  { cbn [heap w1]. rewrite nth_error_list_set_same, He. reflexivity. }
  assert (Ho : forall j, j <> r -> nth_error (heap w1) j = nth_error (heap w) j).
  { intros j Hj. cbn [heap w1]. apply nth_error_list_set_other. congruence. }
  assert (H2' : Forall2 (fun q u => nth_error (heap w1) q = Some u) refs users).
  { apply (Forall2_heap_frame w w1 refs users H2). intros q Hq. apply Ho. intros ->. contradiction. }
  change (setUserArray (VList (map VRef refs)) r w1) with (set_users 0 r (map VRef refs) w1).
  destruct (set_users_run r refs users Hnin Hnd 0 w1 _ H2' Ht) as [R [S1 [L1 [T1 O1]]]].
  destruct (set_users 0 r (map VRef refs) w1) as [w2 r2]. cbn [fst snd] in *. subst r2.
  exists w2. split; [reflexivity|]. split; [exact S1|]. split; [exact L1|]. split; [exact T1|].
  intros j Hj. rewrite (O1 j Hj). apply Ho, Hj.
Qed.

Lemma check_response_ok (json_loads : string -> option json) (url : string) (resp : response)
      (m : list (string * json)) (w : world) :
  status resp = "200" -> utf8_valid (body resp) = true -> json_loads (body resp) = Some (JObj m) ->
  assoc "errors" m = None -> check_response json_loads url resp w = (w, Ok (JObj m)).
Proof.
  intros Hs Hu Hj He. unfold check_response. rewrite Hs. cbn [String.eqb Ascii.eqb Bool.eqb negb].
  unfold bind, lift, decode_utf8, json_loads_res, ret. rewrite Hu, Hj. cbn [json_contains].
  rewrite He. reflexivity.
Qed.

Section Create.

Variable transport : list request -> request -> response.
Variable json_loads : string -> option json.
Variable entity : Type.
Variable mk_entity : string -> json -> res entity.

(** createExpense sends one POST to the create-expense endpoint whose data is
    the expense without [users], followed by the flattened users; that data
    is also what the expense object holds afterwards, no other object
    changes, and a successful answer gives the first returned expense or
    [None]. *)
Theorem createExpense_sends_flattened (w : world) (cl : oclient) (r : nat) (e : pydict)
        (refs : list nat) (users : list pydict) :
  sw_client (self w) = Some cl ->
  nth_error (heap w) r = Some e ->
  assoc "users" e = Some (VList (map VRef refs)) ->
  ~ In r refs ->
  Forall2 (fun q u => nth_error (heap w) q = Some u) refs users ->
  Forall (fun u => NoDup (map fst u)) users ->
  let data := apply_writes (flatten_spec 0 users) (dict_del "users" e) in
  let rq := sent cl CREATE_EXPENSE_URL "POST" (Some data) in
  self (fst (createExpense transport json_loads entity mk_entity r w)) = self w
  /\ log (fst (createExpense transport json_loads entity mk_entity r w)) = (log w ++ [rq])%list
  /\ nth_error (heap (fst (createExpense transport json_loads entity mk_entity r w))) r = Some data
  /\ (forall j, j <> r ->
      nth_error (heap (fst (createExpense transport json_loads entity mk_entity r w))) j
      = nth_error (heap w) j)
  /\ (forall m, status (transport (log w) rq) = "200" ->
      utf8_valid (body (transport (log w) rq)) = true ->
      json_loads (body (transport (log w) rq)) = Some (JObj m) ->
      assoc "errors" m = None ->
      (assoc "expenses" m = None \/ assoc "expenses" m = Some (JArr []) ->
       snd (createExpense transport json_loads entity mk_entity r w) = Ok None)
      /\ (forall x l, assoc "expenses" m = Some (JArr (x :: l)) ->
          snd (createExpense transport json_loads entity mk_entity r w)
          = match mk_entity "Expense" x with Ok ex => Ok (Some ex) | Exc err => Exc err end)).
Proof.
  intros Hcl He Hu Hnin H2 Hnd data rq.
  destruct (del_then_flatten "users" r e _ refs users w He Hu Hnin H2 Hnd)
    as [w2 [Hw2 [S2 [L2 [T2 O2]]]]].
  assert (Hrun : createExpense transport json_loads entity mk_entity r w
                 = bind (makeRequest transport json_loads CREATE_EXPENSE_URL "POST" (Some data))
                        (fun content =>
                           has <- lift (json_contains "expenses" content) ;;
                           if has then
                             xs <- lift (json_getitem content "expenses") ;;
                             n <- lift (json_len xs) ;;
                             if Nat.ltb 0 n then
                               x <- lift (json_first xs) ;;
                               ex <- lift (mk_entity "Expense" x) ;;
                               ret (Some ex)
                             else ret None
                           else ret None) w2).
  { unfold createExpense.
    assert (Hg : get_obj r w = (w, Ok e)) by (unfold get_obj; rewrite He; reflexivity).
    rewrite (bind_step _ _ w w e Hg).
    assert (Hu' : getUsers r w = (w, Ok (VList (map VRef refs)))).
    { unfold getUsers. rewrite get_attr_eq, He, Hu. reflexivity. }
    rewrite (bind_step _ _ w w _ Hu').
    assert (Hb : forall (k : unit -> M (option entity)),
               bind (del_key r "users") (fun _ => bind (setUserArray (VList (map VRef refs)) r) k) w
               = bind (bind (del_key r "users") (fun _ => setUserArray (VList (map VRef refs)) r)) k w).
    { intros k. unfold bind. destruct (del_key r "users" w) as [w' [[]|x]]; reflexivity. }
    rewrite Hb, (bind_step _ _ w w2 tt Hw2).
    assert (Hg2 : get_obj r w2 = (w2, Ok data)) by (unfold get_obj; rewrite T2; reflexivity).
    rewrite (bind_step _ _ w2 w2 data Hg2). reflexivity. }
  assert (Hcl2 : sw_client (self w2) = Some cl) by (rewrite S2; exact Hcl).
  assert (Hfst : fst (createExpense transport json_loads entity mk_entity r w) = after_send w2 rq).
  { rewrite Hrun, bind_world_pure_tail by (intros; frame).
    apply makeRequest_logs; exact Hcl2. }
  rewrite Hfst. cbn [self heap log after_send]. rewrite S2, L2.
  split; [reflexivity|]. split; [reflexivity|]. split; [exact T2|]. split; [exact O2|].
  intros m Hs Hv Hj Herr.
  assert (Hmr : makeRequest transport json_loads CREATE_EXPENSE_URL "POST" (Some data) w2
                = (after_send w2 rq, Ok (JObj m))).
  { rewrite (makeRequest_send transport json_loads w2 cl _ _ _ Hcl2). fold rq. rewrite L2.
    apply check_response_ok; assumption. }
  rewrite Hrun, (bind_step _ _ _ _ _ Hmr).
  unfold bind, lift, ret. cbn [json_contains json_getitem]. split.
  - intros [E|E]; rewrite E; reflexivity.
  - intros x l E. rewrite E. cbn [json_len length Nat.ltb Nat.leb json_first].
    destruct (mk_entity "Expense" x); reflexivity.
Qed.

(** createGroup sends the group unchanged when it has no [members]; otherwise
    it sends, and leaves in the group object, the group without [members]
    followed by the flattened members, with no other object changed. *)
Theorem createGroup_sends (w : world) (cl : oclient) (r : nat) (g : pydict) :
  sw_client (self w) = Some cl ->
  nth_error (heap w) r = Some g ->
  (assoc "members" g = None ->
   fst (createGroup transport json_loads entity mk_entity r w)
   = after_send w (sent cl CREATE_GROUP_URL "POST" (Some g)))
  /\ (forall refs users,
      assoc "members" g = Some (VList (map VRef refs)) ->
      ~ In r refs ->
      Forall2 (fun q u => nth_error (heap w) q = Some u) refs users ->
      Forall (fun u => NoDup (map fst u)) users ->
      let data := apply_writes (flatten_spec 0 users) (dict_del "members" g) in
      self (fst (createGroup transport json_loads entity mk_entity r w)) = self w
      /\ log (fst (createGroup transport json_loads entity mk_entity r w))
         = (log w ++ [sent cl CREATE_GROUP_URL "POST" (Some data)])%list
      /\ nth_error (heap (fst (createGroup transport json_loads entity mk_entity r w))) r = Some data
      /\ (forall j, j <> r ->
          nth_error (heap (fst (createGroup transport json_loads entity mk_entity r w))) j
          = nth_error (heap w) j)).
Proof.
  intros Hcl Hg.
  assert (Hg0 : get_obj r w = (w, Ok g)) by (unfold get_obj; rewrite Hg; reflexivity).
  split.
  - intros Hm. unfold createGroup. rewrite (bind_step _ _ w w g Hg0), Hm.
    rewrite (bind_step (ret tt) _ w w tt eq_refl), (bind_step _ _ w w g Hg0).
    rewrite bind_world_pure_tail by (intros; apply optional_pure).
    apply makeRequest_logs; exact Hcl.
  - intros refs users Hm Hnin H2 Hnd data.
    destruct (del_then_flatten "members" r g _ refs users w Hg Hm Hnin H2 Hnd)
      as [w2 [Hw2 [S2 [L2 [T2 O2]]]]].
    assert (Hfst : fst (createGroup transport json_loads entity mk_entity r w)
                   = after_send w2 (sent cl CREATE_GROUP_URL "POST" (Some data))).
    { unfold createGroup. rewrite (bind_step _ _ w w g Hg0), Hm.
      assert (Hs : (group_members <- getMembers r ;;
                    del_key r "members" ;;; setUserArray group_members r) w = (w2, Ok tt)).
      { assert (Hu' : getMembers r w = (w, Ok (VList (map VRef refs)))).
        { unfold getMembers. rewrite get_attr_eq, Hg, Hm. reflexivity. }
        rewrite (bind_step _ _ w w _ Hu'). exact Hw2. }
      rewrite (bind_step _ _ w w2 tt Hs).
      assert (Hg2 : get_obj r w2 = (w2, Ok data)) by (unfold get_obj; rewrite T2; reflexivity).
      rewrite (bind_step _ _ w2 w2 data Hg2).
      rewrite bind_world_pure_tail by (intros; apply optional_pure).
      apply makeRequest_logs. rewrite S2; exact Hcl. }
    rewrite Hfst. cbn [self heap log after_send]. rewrite S2, L2.
    split; [reflexivity|]. split; [reflexivity|]. split; [exact T2|]. exact O2.
Qed.

End Create.

Lemma dict_set_length_new {A} (k : string) (v : A) (d : list (string * A)) :
  assoc k d = None -> length (dict_set k v d) = S (length d).
Proof.
  induction d as [|[k' v'] d IH]; cbn; [reflexivity|].
  destruct (String.eqb k k'); [discriminate|]. intros H. cbn. rewrite IH by exact H. reflexivity.
Qed.

(** setUserArray writes nothing for an empty list, raises TypeError on a
    non-iterable, and, when the target object is itself the first user,
    writes one new key and then raises RuntimeError, because the dictionary
    it iterates changed size. *)
Theorem setUserArray_edges (w : world) (target : nat) :
  setUserArray (VList []) target w = (w, Ok tt)
  /\ (forall users, match users with VNone | VBool _ | VInt _ | VRef _ => True | _ => False end ->
      setUserArray users target w = (w, Exc (TypeError "object is not iterable")))
  /\ (forall k v rest more,
      nth_error (heap w) target = Some ((k, v) :: rest) ->
      assoc (flat_key 0 k) ((k, v) :: rest) = None ->
      setUserArray (VList (VRef target :: more)) target w
      = (mkWorld (self w) (list_set target (dict_set (flat_key 0 k) v ((k, v) :: rest)) (heap w)) (log w),
         Exc (RuntimeError "dictionary changed size during iteration"))).
Proof.
  split; [reflexivity|]. split.
  - intros [| | | | |] H; try contradiction; reflexivity.
  - intros k v rest more Ht Hn.
    change (setUserArray (VList (VRef target :: more)) target w)
      with (set_users 0 target (VRef target :: more) w).
    cbn [set_users]. rewrite (bind_step (ret target) _ w w target eq_refl).
    assert (Hg0 : get_obj target w = (w, Ok ((k, v) :: rest)))
      by (unfold get_obj; rewrite Ht; reflexivity).
    rewrite (bind_step _ _ w w _ Hg0).
    unfold bind at 1. cbn [map fst copy_fields].
    unfold bind, lift, ret, get_obj, put_obj, raise. rewrite Ht. cbn [assoc].
    rewrite String.eqb_refl. cbn [heap].
    rewrite Ht.
    change ("users__" ++ str_nat 0 ++ "__" ++ (if String.eqb k "id" then "user_id" else k))
      with (flat_key 0 k).
    rewrite nth_error_list_set_same, Ht.
    rewrite (dict_set_length_new _ _ _ Hn).
    rewrite (proj2 (Nat.eqb_neq (S (length ((k, v) :: rest))) (length ((k, v) :: rest)))) by lia.
    reflexivity.
Qed.

Lemma expense_options_set_filters (f : expense_filters) : expense_options f = set_filters f.
Proof.
  destruct f as [[o|] [l|] [g|] [fr|] [da|] [db|] [ua|] [ub|]]; reflexivity.
Qed.

(** The query string getExpenses sends decodes with [parse_qsl] back to the
    filters that are set, paired with the [str] of their values, in
    parameter order, blank ones dropped. *)
Theorem getExpenses_query_decodes (f : expense_filters) :
  exists q, getExpenses_url f = GET_EXPENSES_URL ++ "?" ++ q
         /\ parse_qsl q = nonblank (map (fun '(p, x) => (p, py_str x)) (set_filters f)).
Proof.
  exists (urlencode (expense_options f)). split; [reflexivity|].
  rewrite parse_qsl_urlencode_any, expense_options_set_filters. reflexivity.
Qed.

(** ** Concrete runs of the further properties *)

Definition bad_utf8 : string := String (ascii_of_nat 255) EmptyString.

Definition group_a : pydict := [("name", VStr "trip")].

Definition expense_u : pydict := [("cost", VStr "10.00"); ("users", VList [VRef 1; VRef 2])].

Lemma getAccessToken_roundtrip_witness :
  snd (getAccessToken (answer "200" "OK" token_body) VNone (VStr "rt") (VStr "rs") (VStr "ver")
                      world_no_token)
  = Ok [("oauth_token", "abc"); ("oauth_token_secret", "xyz")].
Proof.
  rewrite (getAccessToken_roundtrip (answer "200" "OK" token_body) VNone (VStr "rt") (VStr "rs")
             (VStr "ver") world_no_token "OK" [("oauth_token", "abc"); ("oauth_token_secret", "xyz")]
             ltac:(discriminate) ltac:(discriminate) ltac:(repeat constructor)
             ltac:(vm_compute; reflexivity)).
  reflexivity.
Defined.

Lemma getAccessToken_errors_witness :
  getAccessToken (answer "200" "OK" token_body) VNone VNone (VStr "rs") VNone world_no_token
  = (world_no_token, Exc (ValueError "Key and secret must be set."))
  /\ snd (getAccessToken (answer "401" "Unauthorized" "") VNone (VStr "rt") (VStr "rs") VNone
                         world_no_token)
     = Exc (SplitwiseAPIException "Invalid response 401. Please check your consumer key and secret.").
Proof.
  split.
  - exact (proj1 (getAccessToken_errors (answer "200" "OK" token_body) VNone VNone (VStr "rs") VNone
                    world_no_token) (or_introl eq_refl)).
  - rewrite (proj2 (getAccessToken_errors (answer "401" "Unauthorized" "") VNone (VStr "rt") (VStr "rs")
                      VNone world_no_token) ltac:(discriminate) ltac:(discriminate)
               ltac:(vm_compute; discriminate)).
    reflexivity.
Defined.

Lemma access_token_handshake_witness :
  snd (getAccessToken (answer "200" "OK" token_body) VNone (VStr "rt") (VStr "rs") VNone world_no_token)
  = Ok [("oauth_token", "abc"); ("oauth_token_secret", "xyz")]
  /\ sw_token (self (fst (setAccessToken (str_pairs [("oauth_token", "abc"); ("oauth_token_secret", "xyz")])
                            (fst (getAccessToken (answer "200" "OK" token_body) VNone (VStr "rt")
                                                 (VStr "rs") VNone world_no_token)))))
     = Some (mkToken (VStr "abc") (VStr "xyz") None).
Proof.
  destruct (access_token_handshake (answer "200" "OK" token_body) VNone (VStr "rt") (VStr "rs") VNone
              world_no_token "OK" "abc" "xyz" ltac:(discriminate) ltac:(discriminate)
              ltac:(discriminate) ltac:(discriminate) eq_refl eq_refl ltac:(vm_compute; reflexivity))
    as [H1 H2].
  split; [exact H1|]. rewrite H2. reflexivity.
Defined.


Lemma setAccessToken_outcome_witness :
  setAccessToken [] world0 = (world0, Exc (KeyError "oauth_token"))
  /\ setAccessToken [("oauth_token", VNone); ("oauth_token_secret", VStr "s")] world0
     = (world0, Exc (ValueError "Key and secret must be set.")).
Proof.
  split.
  - exact (proj1 (setAccessToken_outcome [] world0) eq_refl).
  - exact (proj1 (proj2 (proj2 (setAccessToken_outcome
                                  [("oauth_token", VNone); ("oauth_token_secret", VStr "s")] world0)))
                 VNone (VStr "s") eq_refl eq_refl (or_introl eq_refl)).
Defined.

Lemma Splitwise_new_outcome_witness :
  Splitwise_new (VStr "ck") (VStr "cs") (Some [("oauth_token_secret", VStr "s")]) [] []
  = Exc (KeyError "oauth_token")
  /\ Splitwise_new (VStr "ck") (VStr "cs") (Some []) [] [] = Ok world_no_token.
Proof.
  destruct (proj2 (Splitwise_new_outcome (VStr "ck") (VStr "cs") [] []) ltac:(discriminate)
              ltac:(discriminate)) as (_ & H2 & H3 & _).
  split; [exact (H3 [("oauth_token_secret", VStr "s")] ltac:(discriminate) eq_refl) | exact H2].
Defined.

Lemma makeRequest_bad_body_witness :
  makeRequest (answer "200" "OK" bad_utf8) (parses_to (JObj [])) GET_FRIENDS_URL "GET" None world0
  = (after_send world0 (sent client0 GET_FRIENDS_URL "GET" None), Exc UnicodeDecodeError)
  /\ makeRequest (answer "200" "OK" "<html>") (fun _ => None) GET_FRIENDS_URL "GET" None world0
     = (after_send world0 (sent client0 GET_FRIENDS_URL "GET" None), Exc JSONDecodeError).
Proof.
  split.
  - exact (proj1 (makeRequest_bad_body (answer "200" "OK" bad_utf8) (parses_to (JObj [])) world0 client0
                    GET_FRIENDS_URL "GET" None eq_refl eq_refl) eq_refl).
  - exact (proj2 (makeRequest_bad_body (answer "200" "OK" "<html>") (fun _ => None) world0 client0
                    GET_FRIENDS_URL "GET" None eq_refl eq_refl) eq_refl eq_refl).
Defined.

Lemma makeRequest_no_errors_witness :
  makeRequest (answer "200" "OK" "errors-list") (parses_to (JObj [("errors", JArr [])]))
              GET_GROUPS_URL "GET" None world0
  = (after_send world0 (sent client0 GET_GROUPS_URL "GET" None), Ok (JObj [("errors", JArr [])])).
Proof.
  exact (makeRequest_no_errors (answer "200" "OK" "errors-list") (parses_to (JObj [("errors", JArr [])]))
           world0 client0 GET_GROUPS_URL "GET" None [("errors", JArr [])] eq_refl eq_refl eq_refl eq_refl
           (or_intror (or_intror (or_introl eq_refl)))).
Defined.

Lemma makeRequest_malformed_errors_witness :
  snd (makeRequest (answer "200" "OK" "errors-str") (parses_to (JObj [("errors", JStr "oops")]))
                   GET_GROUPS_URL "GET" None world0)
  = Exc (AttributeError "get")
  /\ snd (makeRequest (answer "200" "OK" "errors-null") (parses_to (JObj [("errors", JNull)]))
                      GET_GROUPS_URL "GET" None world0)
     = Exc (TypeError "object has no len()").
Proof.
  split.
  - rewrite (proj1 (makeRequest_malformed_errors (answer "200" "OK" "errors-str")
                      (parses_to (JObj [("errors", JStr "oops")])) world0 client0 GET_GROUPS_URL "GET" None
                      [("errors", JStr "oops")] (JStr "oops") eq_refl eq_refl eq_refl eq_refl eq_refl) I).
    reflexivity.
  - rewrite (proj2 (makeRequest_malformed_errors (answer "200" "OK" "errors-null")
                      (parses_to (JObj [("errors", JNull)])) world0 client0 GET_GROUPS_URL "GET" None
                      [("errors", JNull)] JNull eq_refl eq_refl eq_refl eq_refl eq_refl) I).
    reflexivity.
Defined.

Lemma user_calls_need_user_witness :
  snd (getCurrentUser (answer "200" "OK" "{}") (parses_to (JObj [])) json entity_json world0)
  = Exc (KeyError "user").
Proof.
  exact (proj1 (user_calls_need_user (answer "200" "OK" "{}") (parses_to (JObj [])) json entity_json
                  world0 []) eq_refl).
Defined.

Lemma collections_in_order_witness :
  snd (getFriends (answer "200" "OK" "friends") (parses_to (JObj [("friends", JArr [JNum 1; JNum 2])]))
                  json entity_json world0)
  = Ok [JNum 1; JNum 2].
Proof.
  exact (proj1 (proj1 (collections_in_order (answer "200" "OK" "friends")
                         (parses_to (JObj [("friends", JArr [JNum 1; JNum 2])])) json entity_json world0
                         [("friends", JArr [JNum 1; JNum 2])]) eq_refl)
               [JNum 1; JNum 2] [JNum 1; JNum 2] eq_refl ltac:(repeat constructor)).
Defined.

Lemma single_entity_present_witness :
  snd (getGroup (answer "200" "OK" "group") (parses_to (JObj [("group", JObj [("id", JNum 3)])]))
                json entity_json (VInt 3) world0)
  = Ok (Some (JObj [("id", JNum 3)])).
Proof.
  exact (proj1 (single_entity_present (answer "200" "OK" "group")
                  (parses_to (JObj [("group", JObj [("id", JNum 3)])])) json entity_json world0
                  [("group", JObj [("id", JNum 3)])])
               (VInt 3) (JObj [("id", JNum 3)]) eq_refl eq_refl).
Defined.

Lemma read_calls_endpoints_witness :
  fst (getFriends (answer "500" "Internal Server Error" "") (parses_to (JObj [])) json entity_json world0)
  = after_send world0 (sent client0 GET_FRIENDS_URL "GET" None).
Proof.
  exact (proj1 (proj2 (proj2 (read_calls_endpoints (answer "500" "Internal Server Error" "")
                                (parses_to (JObj [])) json entity_json world0 client0 eq_refl)))).
Defined.

Lemma createExpense_sends_flattened_witness :
  nth_error (heap (fst (createExpense (answer "200" "OK" "{}") (parses_to (JObj [])) json entity_json 0
                          (mkWorld (self world0) [expense_u; user_a; user_b] []))))
            0
  = Some [("cost", VStr "10.00"); ("users__0__user_id", VInt 7); ("users__0__paid_share", VStr "10.00");
          ("users__1__user_id", VInt 9); ("users__1__owed_share", VStr "10.00")].
Proof.
  destruct (createExpense_sends_flattened (answer "200" "OK" "{}") (parses_to (JObj [])) json entity_json
              (mkWorld (self world0) [expense_u; user_a; user_b] []) client0 0 expense_u [1; 2]
              [user_a; user_b] eq_refl eq_refl eq_refl ltac:(simpl; lia) ltac:(repeat constructor)
              ltac:(repeat constructor; simpl; intuition discriminate)) as (_ & _ & H & _).
  rewrite H. vm_compute. reflexivity.
Defined.

Lemma createGroup_sends_witness :
  fst (createGroup (answer "200" "OK" "{}") (parses_to (JObj [])) json entity_json 0
                   (mkWorld (self world0) [group_a] []))
  = after_send (mkWorld (self world0) [group_a] []) (sent client0 CREATE_GROUP_URL "POST" (Some group_a)).
Proof.
  exact (proj1 (createGroup_sends (answer "200" "OK" "{}") (parses_to (JObj [])) json entity_json
                  (mkWorld (self world0) [group_a] []) client0 0 group_a eq_refl eq_refl) eq_refl).
Defined.

Lemma setUserArray_edges_witness :
  setUserArray VNone 0 world0 = (world0, Exc (TypeError "object is not iterable"))
  /\ snd (setUserArray (VList [VRef 0]) 0 (mkWorld (self world0) [user_a] []))
     = Exc (RuntimeError "dictionary changed size during iteration").
Proof.
  split.
  - exact (proj1 (proj2 (setUserArray_edges world0 0)) VNone I).
  - rewrite (proj2 (proj2 (setUserArray_edges (mkWorld (self world0) [user_a] []) 0))
               "id" (VInt 7) [("paid_share", VStr "10.00")] [] eq_refl eq_refl).
    reflexivity.
Defined.
